(** * GPU capability probes and the build wrapper of hypeman

    A shallow embedding of three Python scripts:
    - [lib/devices/testdata/ollama-cuda/test-cuda.py]  (module [Cuda]),
    - [lib/devices/testdata/ollama-cuda/test-nvml.py]  (module [Nvml]),
    - [run_make.py]                                     (module [RunMake]).

    The scripts are straight-line effectful code: they print, load shared
    libraries through [ctypes], call foreign functions, catch some
    exceptions and leave through [sys.exit].  They are embedded in a small
    state-and-exception monad [Py] over a [world] that records what was
    printed and which native operations were attempted; what the host
    answers (whether a library loads, what a foreign function returns or
    raises) is an explicit argument of every script. *)

From Stdlib Require Import ZArith List String Ascii Lia.
From Stdlib.Strings Require Import Byte.
From stdpp Require Import base gmap strings list pretty.

Local Open Scope Z_scope.

(** ** Python exceptions *)

Inductive exn_class :=
| OSError
| AttributeError
| UnicodeDecodeError
| OverflowError
| ZeroDivisionError
| FileNotFoundError
| RuntimeError.

Inductive exn :=
| Exception (cls : exn_class) (msg : string)
| SystemExit (code : Z).

(** [str(e)] as the f-strings render it. *)
Definition str_exn (e : exn) : string :=
  match e with
  | Exception _ msg => msg
  | SystemExit code => pretty code
  end.

(** [except OSError]: [FileNotFoundError] is a subclass of [OSError]. *)
Definition isinstance_OSError (e : exn) : bool :=
  match e with
  | Exception OSError _ | Exception FileNotFoundError _ => true
  | _ => false
  end.

(** [except Exception]: everything but [SystemExit]. *)
Definition isinstance_Exception (e : exn) : bool :=
  match e with
  | Exception _ _ => true
  | SystemExit _ => false
  end.

(** ** The world and the monad *)

(** What a run does to the outside, in order. *)
Inductive event :=
| Load (path : string)      (* ctypes.CDLL(path) was attempted *)
| Call (symbol : string).   (* the foreign function was called *)

Record world := World {
  stdout : list string;     (* one entry per print() to standard output *)
  stderr : list string;     (* one entry per print(..., file=sys.stderr) *)
  trace : list event
}.

Definition fresh : world := World [] [] [].

Inductive outcome (A : Type) :=
| Normal (a : A)
| Throw (e : exn).
Arguments Normal {A} a.
Arguments Throw {A} e.

Definition Py (A : Type) : Type := world -> outcome A * world.

Global Instance py_ret : MRet Py := fun A (a : A) w => (Normal a, w).

Global Instance py_bind : MBind Py := fun A B (k : A -> Py B) (m : Py A) w =>
  match m w with
  | (Normal a, w') => k a w'
  | (Throw e, w') => (Throw e, w')
  end.

Definition raise {A} (e : exn) : Py A := fun w => (Throw e, w).

(** [try: body / except C as e: handler e], where [catches] decides
    [isinstance(e, C)]. *)
Definition try_except {A} (body : Py A) (catches : exn -> bool)
    (handler : exn -> Py A) : Py A :=
  fun w =>
    match body w with
    | (Normal a, w') => (Normal a, w')
    | (Throw e, w') => if catches e then handler e w' else (Throw e, w')
    end.

Definition print (line : string) : Py unit :=
  fun w => (Normal tt, World (stdout w ++ [line]) (stderr w) (trace w)).

Definition print_stderr (line : string) : Py unit :=
  fun w => (Normal tt, World (stdout w) (stderr w ++ [line]) (trace w)).

Definition emit (ev : event) : Py unit :=
  fun w => (Normal tt, World (stdout w) (stderr w) (trace w ++ [ev])).

(** [sys.exit(code)] and the builtin [exit(code)]. *)
Definition sys_exit {A} (code : Z) : Py A := raise (SystemExit code).

(** ** ctypes *)

(** What [ctypes.CDLL(path)] does: hand back the library or raise an
    exception of class [cls] ([OSError] when the file or one of its
    dependencies cannot be loaded). *)
Inductive dlopen_result (L : Type) :=
| Loaded (lib : L)
| LoadError (cls : exn_class) (msg : string).
Arguments Loaded {L} lib.
Arguments LoadError {L} cls msg.

Definition CDLL {L} (dlopen : string -> dlopen_result L) (path : string) : Py L :=
  emit (Load path) ;;
  match dlopen path with
  | Loaded lib => mret lib
  | LoadError cls msg => raise (Exception cls msg)
  end.

(** What calling a foreign function does: return a status (the default
    [c_int] result type) after writing its output slot, or raise (a
    symbol that the library does not export raises [AttributeError]). *)
Inductive ffi (A : Type) :=
| Returned (status : Z) (slot : A)
| Raised (cls : exn_class) (msg : string).
Arguments Returned {A} status slot.
Arguments Raised {A} cls msg.

Definition foreign {A} (symbol : string) (f : ffi A) : Py (Z * A) :=
  emit (Call symbol) ;;
  match f with
  | Returned status slot => mret (status, slot)
  | Raised cls msg => raise (Exception cls msg)
  end.

(** ** Running a script as a process *)

Record process := Process {
  p_stdout : list string;
  p_stderr : list string;
  p_trace : list event;
  exit_code : Z
}.

(** The last line of the traceback of an uncaught exception. *)
Definition traceback (e : exn) : string :=
  "Traceback (most recent call last): " +:+ str_exn e.

(** Falling off the end exits 0; [SystemExit(code)] makes the process
    exit with the low eight bits of [code], the exit status that the
    parent sees ([sys.exit(-9)] exits 247); any other uncaught exception
    prints a traceback on standard error and exits 1. *)
Definition run_script (script : Py unit) : process :=
  match script fresh with
  | (Normal _, w) => Process (stdout w) (stderr w) (trace w) 0
  | (Throw (SystemExit code), w) =>
      Process (stdout w) (stderr w) (trace w) (code mod 256)
  | (Throw e, w) =>
      Process (stdout w) (stderr w ++ [traceback e]) (trace w) 1
  end.

(** ** [str.decode()] of a [c_char] buffer *)

(** [buf.value]: the bytes before the first NUL. *)
Fixpoint buffer_value (buf : list byte) : list byte :=
  match buf with
  | [] => []
  | b :: rest => if Byte.eqb b Byte.x00 then [] else b :: buffer_value rest
  end.

Definition in_range (lo hi : N) (b : byte) : bool :=
  (N.leb lo (Byte.to_N b) && N.leb (Byte.to_N b) hi)%bool.

(** Well-formed UTF-8, the byte sequences the strict decoder accepts:
    no overlong form, no surrogate, nothing above U+10FFFF. *)
Fixpoint utf8_valid (bs : list byte) : bool :=
  match bs with
  | [] => true
  | b0 :: r0 =>
      if in_range 0 127 b0 then utf8_valid r0
      else match r0 with
      | [] => false
      | b1 :: r1 =>
          if in_range 194 223 b0 then in_range 128 191 b1 && utf8_valid r1
          else match r1 with
          | [] => false
          | b2 :: r2 =>
              if in_range 224 239 b0 then
                (if in_range 224 224 b0 then in_range 160 191 b1
                 else if in_range 237 237 b0 then in_range 128 159 b1
                 else in_range 128 191 b1)
                && in_range 128 191 b2 && utf8_valid r2
              else match r2 with
              | [] => false
              | b3 :: r3 =>
                  in_range 240 244 b0
                  && (if in_range 240 240 b0 then in_range 144 191 b1
                      else if in_range 244 244 b0 then in_range 128 143 b1
                      else in_range 128 191 b1)
                  && in_range 128 191 b2 && in_range 128 191 b3
                  && utf8_valid r3
              end
          end
      end
  end%bool.

(** [bs.decode()]: the text (kept as its UTF-8 bytes) or
    [UnicodeDecodeError]. *)
Definition decode (bs : list byte) : Py string :=
  if utf8_valid bs then mret (string_of_list_byte bs)
  else raise (Exception UnicodeDecodeError
                "'utf-8' codec can't decode bytes").

(** ** [int / int] and the [.1f] format *)

(** A finite binary64 number, [(-1)^negative * mant * 2^expo]. *)
Record float := Float { negative : bool; mant : Z; expo : Z }.

(** [num / den] rounded to the nearest integer, ties to even
    ([0 <= num], [0 < den]). *)
Definition round_half_even (num den : Z) : Z :=
  let q := num / den in
  let r := num mod den in
  if 2 * r <? den then q
  else if den <? 2 * r then q + 1
  else if Z.even q then q else q + 1.

(** The binary64 number nearest to [a / b] for [0 < a] and [0 < b], as
    mantissa and exponent, or [None] past the largest finite one.  The
    exponent is chosen so that the mantissa has 53 bits, and never below
    that of the subnormal numbers. *)
Definition nearest_binary64 (a b : Z) : option (Z * Z) :=
  let scaled e := (a * 2 ^ Z.max 0 (- e), b * 2 ^ Z.max 0 e) in
  let e0 := Z.log2 a - Z.log2 b - 53 in
  let e1 := if fst (scaled e0) / snd (scaled e0) <? 2 ^ 53 then e0 else e0 + 1 in
  let e := Z.max e1 (-1074) in
  let m := round_half_even (fst (scaled e)) (snd (scaled e)) in
  if 2 ^ 2098 <=? m * 2 ^ (e + 1074) then None else Some (m, e).

(** Python's [a / b] on integers: the correctly rounded quotient. *)
Definition int_truediv (a b : Z) : Py float :=
  if decide (b = 0) then
    raise (Exception ZeroDivisionError "division by zero")
  else if decide (a = 0) then mret (Float (b <? 0) 0 0)
  else
    match nearest_binary64 (Z.abs a) (Z.abs b) with
    | Some (m, e) => mret (Float (xorb (a <? 0) (b <? 0)) m e)
    | None =>
        raise (Exception OverflowError
                 "integer division result too large for a float")
    end.

(** [f"{x:.1f}"]: the decimal with one fractional digit nearest to the
    exact value of [x], ties to even. *)
Definition format_1f (x : float) : string :=
  let tenths :=
    if 0 <=? expo x then mant x * 10 * 2 ^ expo x
    else round_half_even (mant x * 10) (2 ^ (- expo x)) in
  (if negative x then "-" else "")
    +:+ pretty (tenths / 10) +:+ "." +:+ pretty (tenths mod 10).

(** [for x in xs: body x], without [break]. *)
Fixpoint for_each {A} (xs : list A) (body : A -> Py unit) : Py unit :=
  match xs with
  | [] => mret tt
  | x :: rest => body x ;; for_each rest body
  end.

(** * test-cuda.py *)

Module Cuda.

(** The entry points of the driver library that the script calls.  Each
    gives the returned status and the content of its output slot after the
    call; the slots start at zero ([c_int()], [c_size_t()],
    [create_string_buffer(256)]). *)
Record library := Library {
  cuInit : Z -> ffi unit;
  cuDeviceGetCount : ffi Z;
  cuDeviceGet : Z -> ffi Z;                      (* ordinal *)
  cuDeviceGetName : Z -> Z -> ffi (list byte);   (* length, device *)
  cuDeviceTotalMem_v2 : Z -> ffi Z               (* device *)
}.

Record host := Host {
  environ : gmap string string;
  dlopen : string -> dlopen_result library
}.

Definition test_cuda (h : host) : Py bool :=
  print "=== CUDA Driver Test ===" ;;
  print ("LD_LIBRARY_PATH: "
           +:+ default "not set" (environ h !! "LD_LIBRARY_PATH")) ;;
  loaded ← try_except
    (cuda ← CDLL (dlopen h) "libcuda.so";
     print "✓ Loaded libcuda.so" ;;
     mret (Some cuda))
    isinstance_OSError
    (fun e =>
       print ("✗ Failed to load libcuda.so: " +:+ str_exn e) ;;
       mret None);
  match loaded with
  | None => mret false
  | Some cuda =>
      '(ret, _) ← foreign "cuInit" (cuInit cuda 0);
      if decide (ret ≠ 0) then
        print ("✗ cuInit failed with code: " +:+ pretty ret) ;;
        mret false
      else
      print "✓ cuInit succeeded" ;;
      '(ret, count) ← foreign "cuDeviceGetCount" (cuDeviceGetCount cuda);
      if decide (ret ≠ 0) then
        print ("✗ cuDeviceGetCount failed with code: " +:+ pretty ret) ;;
        mret false
      else
      print ("✓ Found " +:+ pretty count +:+ " CUDA device(s)") ;;
      if decide (count = 0) then mret false
      else
      '(ret, device) ← foreign "cuDeviceGet" (cuDeviceGet cuda 0);
      if decide (ret ≠ 0) then
        print ("✗ cuDeviceGet failed: " +:+ pretty ret) ;;
        mret false
      else
      '(ret, name) ← foreign "cuDeviceGetName" (cuDeviceGetName cuda 256 device);
      (if decide (ret = 0) then
         text ← decode (buffer_value name);
         print ("✓ Device 0: " +:+ text)
       else mret tt) ;;
      '(ret, total_mem) ←
        foreign "cuDeviceTotalMem_v2" (cuDeviceTotalMem_v2 cuda device);
      (if decide (ret = 0) then
         gb ← int_truediv total_mem (1024 ^ 3);
         print ("✓ Total memory: " +:+ format_1f gb +:+ " GB")
       else mret tt) ;;
      mret true
  end.

Definition verdict (success : bool) : string :=
  "Result: " +:+ (if success then "CUDA WORKS" else "CUDA FAILED").

Definition main (h : host) : Py unit :=
  success ← test_cuda h;
  print "" ;;
  print (verdict success) ;;
  sys_exit (if success : bool then 0 else 1).

End Cuda.

(** * test-nvml.py *)

Module Nvml.

Record library := Library {
  nvmlInit_v2 : ffi unit;
  nvmlDeviceGetCount_v2 : ffi Z;
  nvmlShutdown : ffi unit
}.

Record host := Host {
  environ : gmap string string;
  path_exists : string -> bool;       (* os.path.exists *)
  dlopen : string -> dlopen_result library
}.

Definition lib_paths : list string :=
  [ "libnvidia-ml.so.1";
    "libnvidia-ml.so";
    "/usr/lib/x86_64-linux-gnu/libnvidia-ml.so.1" ].

Definition error_names : gmap Z string :=
  <[1 := "NVML_ERROR_UNINITIALIZED"]>
  (<[2 := "NVML_ERROR_INVALID_ARGUMENT"]>
  (<[3 := "NVML_ERROR_NOT_SUPPORTED"]>
  (<[9 := "NVML_ERROR_DRIVER_NOT_LOADED"]>
  (<[12 := "NVML_ERROR_LIB_RM_VERSION_MISMATCH"]>
  (<[255 := "NVML_ERROR_UNKNOWN"]> ∅))))).

(** The search loop: [nvml] stays [None] until a candidate loads, and the
    first load leaves the loop through [break]. *)
Fixpoint load_loop (h : host) (paths : list string) : Py (option library) :=
  match paths with
  | [] => mret None
  | path :: rest =>
      loaded ← try_except
        (nvml ← CDLL (dlopen h) path;
         print ("✓ Loaded NVML from: " +:+ path) ;;
         mret (Some nvml))
        isinstance_OSError
        (fun e =>
           print ("✗ Failed to load " +:+ path +:+ ": " +:+ str_exn e) ;;
           mret None);
      match loaded with
      | Some nvml => mret (Some nvml)
      | None => load_loop h rest
      end
  end.

(** The body of [test_nvml] over a list of candidates; a [try] block
    yields [inl b] where the source leaves the function with [return b]. *)
Definition test_nvml_over (paths : list string) (h : host) : Py bool :=
  nvml ← load_loop h paths;
  match nvml with
  | None =>
      print "ERROR: Could not load NVML library" ;;
      mret false
  | Some nvml =>
      initialised ← try_except
        ('(ret, _) ← foreign "nvmlInit_v2" (nvmlInit_v2 nvml);
         if decide (ret ≠ 0) then
           print ("✗ nvmlInit_v2 failed with code: " +:+ pretty ret) ;;
           print ("   Error name: "
                    +:+ default "UNKNOWN" (error_names !! ret)) ;;
           mret (inl false)
         else
           print "✓ nvmlInit_v2 succeeded" ;;
           mret (inr tt))
        isinstance_Exception
        (fun e =>
           print ("✗ nvmlInit_v2 exception: " +:+ str_exn e) ;;
           mret (inl false));
      match initialised with
      | inl result => mret result
      | inr _ =>
          counted ← try_except
            ('(ret, count) ←
               foreign "nvmlDeviceGetCount_v2" (nvmlDeviceGetCount_v2 nvml);
             if decide (ret ≠ 0) then
               print ("✗ nvmlDeviceGetCount failed with code: "
                        +:+ pretty ret) ;;
               mret (inl false)
             else
               print ("✓ Found " +:+ pretty count +:+ " GPU(s)") ;;
               mret (inr count))
            isinstance_Exception
            (fun e =>
               print ("✗ nvmlDeviceGetCount exception: " +:+ str_exn e) ;;
               mret (inl false));
          match counted with
          | inl result => mret result
          | inr count =>
              foreign "nvmlShutdown" (nvmlShutdown nvml) ;;
              mret (bool_decide (count > 0))
          end
      end
  end.

Definition test_nvml : host -> Py bool := test_nvml_over lib_paths.

Definition verdict (success : bool) : string :=
  "Result: " +:+ (if success then "GPU DETECTED" else "NO GPU FOUND").

Definition main_over (paths : list string) (h : host) : Py unit :=
  print "=== NVML GPU Detection Test ===" ;;
  print ("LD_LIBRARY_PATH: "
           +:+ default "not set" (environ h !! "LD_LIBRARY_PATH")) ;;
  print "" ;;
  print "Device nodes:" ;;
  for_each ["/dev/nvidia0"; "/dev/nvidiactl"; "/dev/nvidia-uvm"]
    (fun dev =>
       let exists_ := path_exists h dev in
       print ("  " +:+ dev +:+ ": "
                +:+ (if exists_ then "exists" else "MISSING"))) ;;
  print "" ;;
  success ← test_nvml_over paths h;
  print "" ;;
  print (verdict success) ;;
  sys_exit (if success : bool then 0 else 1).

Definition main : host -> Py unit := main_over lib_paths.

End Nvml.

(** * run_make.py *)

Module RunMake.

(** [subprocess.CompletedProcess] with [capture_output=True, text=True]. *)
Record CompletedProcess := Completed {
  out : string;
  err : string;
  returncode : Z
}.

Record host := Host {
  chdir : string -> option exn;                       (* None: done *)
  run : list string -> CompletedProcess + exn
}.

Definition os_chdir (h : host) (path : string) : Py unit :=
  match chdir h path with
  | None => mret tt
  | Some e => raise e
  end.

Definition subprocess_run (h : host) (args : list string) : Py CompletedProcess :=
  match run h args with
  | inl result => mret result
  | inr e => raise e
  end.

Definition newline : string := String "010" EmptyString.

Definition script (h : host) : Py unit :=
  os_chdir h "/workspace/repo-76e8dc9d-020e-4ec1-93c2-ad0a593aa1a6" ;;
  print "Running make oapi-generate..." ;;
  result ← subprocess_run h ["make"; "oapi-generate"];
  print (out result) ;;
  (if decide (err result ≠ "") then
     print_stderr ("STDERR: " +:+ err result)
   else mret tt) ;;
  (if decide (returncode result ≠ 0) then
     print ("Command failed with exit code " +:+ pretty (returncode result)) ;;
     sys_exit (returncode result)
   else mret tt) ;;
  print (newline +:+ "Generation complete!").

End RunMake.

(** * Reading a run *)

(** [succeeded]: the probe function returned [True]. *)
Definition succeeded (run : outcome bool * world) : bool :=
  match run.1 with
  | Normal success => success
  | Throw _ => false
  end.

(** The paths handed to [ctypes.CDLL] and the foreign functions called,
    in the order of the run. *)
Definition loads (t : list event) : list string :=
  omap (fun ev => match ev with Load path => Some path | Call _ => None end) t.

Definition calls (t : list event) : list string :=
  omap (fun ev => match ev with Call symbol => Some symbol | Load _ => None end) t.

(** The order in which each probe calls its entry points. *)
Definition cuda_call_order : list string :=
  ["cuInit"; "cuDeviceGetCount"; "cuDeviceGet"; "cuDeviceGetName";
   "cuDeviceTotalMem_v2"].

Definition nvml_call_order : list string :=
  ["nvmlInit_v2"; "nvmlDeviceGetCount_v2"; "nvmlShutdown"].

(** The lines of [test_cuda] up to a successful [cuInit]. *)
Definition cuda_initialised_lines (h : Cuda.host) : list string :=
  [ "=== CUDA Driver Test ===";
    "LD_LIBRARY_PATH: "
      +:+ default "not set" (Cuda.environ h !! "LD_LIBRARY_PATH");
    "✓ Loaded libcuda.so";
    "✓ cuInit succeeded" ].

(** The candidate raises [OSError] when loaded. *)
Definition load_fails (h : Nvml.host) (path : string) : bool :=
  match Nvml.dlopen h path with
  | Loaded _ => false
  | LoadError cls msg => isinstance_OSError (Exception cls msg)
  end.

(** The line that the search loop prints for a candidate. *)
Definition load_line (h : Nvml.host) (path : string) : string :=
  match Nvml.dlopen h path with
  | Loaded _ => "✓ Loaded NVML from: " +:+ path
  | LoadError _ msg => "✗ Failed to load " +:+ path +:+ ": " +:+ msg
  end.

(** The world after a run of [test_nvml] from [w] that attempted the
    candidates [attempted], then printed [lines] and called [symbols]. *)
Definition searched (h : Nvml.host) (attempted : list string) (w : world)
    (lines : list string) (symbols : list string) : world :=
  World (stdout w ++ (load_line h <$> attempted) ++ lines) (stderr w)
        (trace w ++ (Load <$> attempted) ++ (Call <$> symbols)).

(** The lines of [main] before it calls [test_nvml]. *)
Definition nvml_header (h : Nvml.host) : list string :=
  [ "=== NVML GPU Detection Test ===";
    "LD_LIBRARY_PATH: "
      +:+ default "not set" (Nvml.environ h !! "LD_LIBRARY_PATH");
    "";
    "Device nodes:" ]
  ++ ((fun dev => "  " +:+ dev +:+ ": "
         +:+ (if Nvml.path_exists h dev then "exists" else "MISSING"))
        <$> ["/dev/nvidia0"; "/dev/nvidiactl"; "/dev/nvidia-uvm"])
  ++ [ "" ].

(** * Example hosts *)

Module Examples.

(** A [c_char] buffer of 256 bytes holding [text] and NUL padding. *)
Definition name_buffer (text : string) : list byte :=
  take 256 (list_byte_of_string text ++ repeat Byte.x00 256).

(** A driver with one device of 8 GiB. *)
Definition cuda_one_device : Cuda.library :=
  Cuda.Library (fun _ => Returned 0 tt) (Returned 0 1)
    (fun _ => Returned 0 0)
    (fun _ _ => Returned 0 (name_buffer "NVIDIA L4"))
    (fun _ => Returned 0 8589934592).

(** The same driver, but [cuDeviceGet] answers CUDA_ERROR_INVALID_DEVICE. *)
Definition cuda_no_handle : Cuda.library :=
  Cuda.Library (fun _ => Returned 0 tt) (Returned 0 1)
    (fun _ => Returned 101 0)
    (fun _ _ => Returned 0 (name_buffer "NVIDIA L4"))
    (fun _ => Returned 0 8589934592).

(** Two devices whose name and memory queries both answer an error. *)
Definition cuda_no_enrichment : Cuda.library :=
  Cuda.Library (fun _ => Returned 0 tt) (Returned 0 2)
    (fun _ => Returned 0 0)
    (fun _ _ => Returned 1 (name_buffer ""))
    (fun _ => Returned 1 0).

(** One device whose name is known and whose memory query answers an
    error. *)
Definition cuda_no_memory : Cuda.library :=
  Cuda.Library (fun _ => Returned 0 tt) (Returned 0 1)
    (fun _ => Returned 0 0)
    (fun _ _ => Returned 0 (name_buffer "NVIDIA L4"))
    (fun _ => Returned 1 0).

Definition cuda_no_devices : Cuda.library :=
  Cuda.Library (fun _ => Returned 0 tt) (Returned 0 0)
    (fun _ => Returned 101 0)
    (fun _ _ => Returned 101 (name_buffer ""))
    (fun _ => Returned 101 0).

(** [cuDeviceGetCount] answers CUDA_ERROR_NO_DEVICE. *)
Definition cuda_count_error : Cuda.library :=
  Cuda.Library (fun _ => Returned 0 tt) (Returned 100 0)
    (fun _ => Returned 101 0)
    (fun _ _ => Returned 101 (name_buffer ""))
    (fun _ => Returned 101 0).

(** A library file that loads but does not export [cuInit]. *)
Definition cuda_no_symbol : Cuda.library :=
  Cuda.Library
    (fun _ => Raised AttributeError "undefined symbol: cuInit")
    (Returned 0 1)
    (fun _ => Returned 0 0)
    (fun _ _ => Returned 0 (name_buffer "NVIDIA L4"))
    (fun _ => Returned 0 8589934592).

(** The name buffer starts with a byte that no UTF-8 text contains. *)
Definition cuda_bad_name : Cuda.library :=
  Cuda.Library (fun _ => Returned 0 tt) (Returned 0 1)
    (fun _ => Returned 0 0)
    (fun _ _ => Returned 0 (Byte.xff :: repeat Byte.x00 255))
    (fun _ => Returned 0 8589934592).

(** A driver that reports a negative number of devices. *)
Definition cuda_negative_count : Cuda.library :=
  Cuda.Library (fun _ => Returned 0 tt) (Returned 0 (-1))
    (fun _ => Returned 0 0)
    (fun _ _ => Returned 0 (name_buffer "NVIDIA L4"))
    (fun _ => Returned 0 8589934592).

Definition cuda_host (lib : Cuda.library) : Cuda.host :=
  Cuda.Host ∅ (fun _ => Loaded lib).

Definition not_found : string :=
  "cannot open shared object file: No such file or directory".

Definition nvml_host (lib : Nvml.library) : Nvml.host :=
  Nvml.Host ∅ (fun _ => false)
    (fun path =>
       if decide (path = "libnvidia-ml.so") then Loaded lib
       else LoadError OSError not_found).

(** No candidate is installed. *)
Definition nvml_absent : Nvml.host :=
  Nvml.Host ∅ (fun _ => false) (fun _ => LoadError OSError not_found).

Definition nvml_two_gpus : Nvml.library :=
  Nvml.Library (Returned 0 tt) (Returned 0 2) (Returned 0 tt).

Definition nvml_no_gpus : Nvml.library :=
  Nvml.Library (Returned 0 tt) (Returned 0 0) (Returned 0 tt).

(** The device-count query answers NVML_ERROR_UNKNOWN (999). *)
Definition nvml_count_error : Nvml.library :=
  Nvml.Library (Returned 0 tt) (Returned 999 0) (Returned 0 tt).

(** Initialization answers NVML_ERROR_DRIVER_NOT_LOADED (9). *)
Definition nvml_driver_not_loaded : Nvml.library :=
  Nvml.Library (Returned 9 tt) (Returned 0 0) (Returned 0 tt).

(** A library file that loads but does not export [nvmlShutdown]. *)
Definition nvml_no_shutdown : Nvml.library :=
  Nvml.Library (Returned 0 tt) (Returned 0 2)
    (Raised AttributeError "undefined symbol: nvmlShutdown").

(** An older library that does not export [nvmlInit_v2]. *)
Definition nvml_no_init : Nvml.library :=
  Nvml.Library (Raised AttributeError "undefined symbol: nvmlInit_v2")
    (Returned 0 2) (Returned 0 tt).

(** [nvmlShutdown] answers NVML_ERROR_UNINITIALIZED (1). *)
Definition nvml_shutdown_fails : Nvml.library :=
  Nvml.Library (Returned 0 tt) (Returned 0 2) (Returned 1 tt).

(** The repository directory does not exist. *)
Definition make_no_directory : RunMake.host :=
  RunMake.Host
    (fun _ => Some (Exception FileNotFoundError
                      "[Errno 2] No such file or directory"))
    (fun _ => inl (RunMake.Completed "" "" 0)).

Definition make_host (result : RunMake.CompletedProcess) : RunMake.host :=
  RunMake.Host (fun _ => None) (fun _ => inl result).

End Examples.

(** * Evaluating scripts *)

Ltac py_unfold :=
  cbv [mbind py_bind mret py_ret print print_stderr try_except CDLL foreign
       emit raise sys_exit for_each];
  cbn [stdout stderr trace].

(** Rewrite with the host's answer [H] and go on evaluating. *)
Ltac answer H := rewrite H; py_unfold.

(** Settle the [decide] at the head of the remaining script. *)
Ltac branch := case_decide; [try (done || lia) | try (done || lia)]; py_unfold.

Lemma app_snoc2 {A} (l : list A) (x y : A) : (l ++ [x]) ++ [y] = l ++ [x; y].
Proof. by rewrite <- app_assoc. Qed.

Lemma last_snoc2 {A} (l : list A) (x y : A) : last (l ++ [x; y]) = Some y.
Proof. rewrite <- app_snoc2. apply last_snoc. Qed.

(** Split on what a foreign function may answer: a status or an
    exception. *)
Ltac every_answer :=
  first
    [ progress py_unfold
    | progress cbn [isinstance_Exception]
    | case_decide
    | match goal with
      | |- context [match ?f with Returned _ _ => _ | Raised _ _ => _ end] =>
          destruct f as [? ?|? ?]
      end ].

(** ** Floating-point display *)

Lemma round_half_even_bounds num den :
  0 <= num -> 0 < den -> 0 <= round_half_even num den <= num + 1.
Proof.
  intros Hn Hd. unfold round_half_even.
  assert (0 <= num / den <= num).
  { split; [apply Z.div_pos; lia|].
    apply Z.div_le_upper_bound; nia. }
  repeat case_match; lia.
Qed.

(** A [c_size_t] divided by [1024 ** 3] never overflows a float. *)
Lemma nearest_binary64_size_t a :
  0 < a < 2 ^ 64 -> is_Some (nearest_binary64 a (1024 ^ 3)).
Proof.
  intros [Ha1 Ha2]. unfold nearest_binary64.
  change (Z.log2 (1024 ^ 3)) with 30.
  assert (0 <= Z.log2 a < 64) as Hla.
  { split; [apply Z.log2_nonneg|]. by apply Z.log2_lt_pow2. }
  set (e0 := Z.log2 a - 30 - 53).
  cbv zeta. cbn [fst snd].
  set (e1 := if _ <? _ then e0 else e0 + 1).
  assert (-83 <= e1 <= -19) as He1 by (subst e1 e0; case_match; lia).
  rewrite (Z.max_l e1 (-1074)) by lia.
  rewrite (Z.max_r 0 (- e1)), (Z.max_l 0 e1) by lia.
  set (m := round_half_even _ _).
  assert (0 <= m <= a * 2 ^ (- e1) + 1) as Hm.
  { apply round_half_even_bounds; [|done].
    apply Z.mul_nonneg_nonneg; [lia|]. apply Z.pow_nonneg; lia. }
  assert (2 ^ (- e1) <= 2 ^ 83) by (apply Z.pow_le_mono_r; lia).
  assert (0 < 2 ^ (- e1)) by (apply Z.pow_pos_nonneg; lia).
  assert (m < 2 ^ 148).
  { change (2 ^ 148) with (2 ^ 64 * 2 ^ 83 + 2 ^ 64 * 2 ^ 83).
    assert (a * 2 ^ (- e1) <= 2 ^ 64 * 2 ^ 83)
      by (apply Z.mul_le_mono_nonneg; lia).
    assert (1 <= 2 ^ 64 * 2 ^ 83) by done. lia. }
  assert (0 < 2 ^ (e1 + 1074) <= 2 ^ 1055).
  { split; [apply Z.pow_pos_nonneg; lia | apply Z.pow_le_mono_r; lia]. }
  assert (m * 2 ^ (e1 + 1074) < 2 ^ 2098).
  { apply Z.le_lt_trans with (m * 2 ^ 1055);
      [apply Z.mul_le_mono_nonneg_l; lia|].
    apply Z.lt_le_trans with (2 ^ 148 * 2 ^ 1055);
      [apply Z.mul_lt_mono_pos_r; lia|].
    rewrite <- Z.pow_add_r by lia. apply Z.pow_le_mono_r; lia. }
  destruct (Z.leb_spec (2 ^ 2098) (m * 2 ^ (e1 + 1074))); [lia | eauto].
Qed.

(** The division in [test_cuda] returns, and touches nothing. *)
Lemma int_truediv_size_t (total_mem : Z) :
  0 <= total_mem < 2 ^ 64 ->
  exists gb, forall w, int_truediv total_mem (1024 ^ 3) w = (Normal gb, w).
Proof.
  intros Hrange. unfold int_truediv.
  destruct (decide (1024 ^ 3 = 0)) as [Hz|_]; [done|].
  destruct (decide (total_mem = 0)) as [->|Hnz]; [by eexists|].
  rewrite (Z.abs_eq total_mem), (Z.abs_eq (1024 ^ 3)) by lia.
  destruct (nearest_binary64_size_t total_mem) as [[m e] ->]; [lia|].
  by eexists.
Qed.

(** The display of some sizes, as CPython prints them: ties go to the even
    digit, and the largest [c_size_t] rounds up to 2^34. *)
Example display_quarter :
  (gb ← int_truediv 1 4; mret (format_1f gb)) fresh = (Normal "0.2", fresh).
Proof. reflexivity. Qed.

Example display_three_quarters :
  (gb ← int_truediv 3 4; mret (format_1f gb)) fresh = (Normal "0.8", fresh).
Proof. reflexivity. Qed.

Example display_seven_twentieths :
  (gb ← int_truediv 7 20; mret (format_1f gb)) fresh = (Normal "0.3", fresh).
Proof. reflexivity. Qed.

Example display_one_and_a_half_gib :
  (gb ← int_truediv 1610612736 (1024 ^ 3); mret (format_1f gb)) fresh
  = (Normal "1.5", fresh).
Proof. reflexivity. Qed.

Example display_24_gb_card :
  (gb ← int_truediv 25757220864 (1024 ^ 3); mret (format_1f gb)) fresh
  = (Normal "24.0", fresh).
Proof. reflexivity. Qed.

Example display_largest_size_t :
  (gb ← int_truediv (2 ^ 64 - 1) (1024 ^ 3); mret (format_1f gb)) fresh
  = (Normal "17179869184.0", fresh).
Proof. vm_compute. reflexivity. Qed.

(** C9: 8589934592 bytes, that is 8 * 1024^3, divided by [1024 ** 3] and
    formatted with [.1f] display as the string 8.0, which is what the
    memory line of [test_cuda] shows. *)
Theorem memory_display_8_gib :
  (gb ← int_truediv 8589934592 (1024 ^ 3); mret (format_1f gb)) fresh
    = (Normal "8.0", fresh)
  /\ In "✓ Total memory: 8.0 GB"
       (stdout (Cuda.test_cuda (Examples.cuda_host Examples.cuda_one_device)
                  fresh).2).
Proof. split; [reflexivity | vm_compute; tauto]. Qed.

(** ** test-cuda.py *)

(** The single candidate does not load: one line, and no call at all. *)
Lemma cuda_load_failed (h : Cuda.host) cls msg w :
  Cuda.dlopen h "libcuda.so" = LoadError cls msg ->
  isinstance_OSError (Exception cls msg) ->
  Cuda.test_cuda h w =
    (Normal false,
     World (stdout w ++ take 2 (cuda_initialised_lines h)
              ++ ["✗ Failed to load libcuda.so: " +:+ msg])
           (stderr w) (trace w ++ [Load "libcuda.so"])).
Proof.
  intros Hload Hos. unfold Cuda.test_cuda. py_unfold. answer Hload.
  rewrite (Is_true_true_1 _ Hos). py_unfold. by rewrite <- !app_assoc.
Qed.

Section cuda.
Import Cuda.
Context (h : host) (lib : library).
Hypothesis Hload : dlopen h "libcuda.so" = Loaded lib.

(** The run up to the answer of [cuInit]. *)
Lemma cuda_init_failed c u w :
  cuInit lib 0 = Returned c u -> c ≠ 0 ->
  test_cuda h w =
    (Normal false,
     World (stdout w ++ take 3 (cuda_initialised_lines h)
              ++ ["✗ cuInit failed with code: " +:+ pretty c])
           (stderr w) (trace w ++ [Load "libcuda.so"; Call "cuInit"])).
Proof.
  intros Hinit Hc. unfold test_cuda. py_unfold.
  answer Hload. answer Hinit. branch.
  by rewrite <- !app_assoc.
Qed.

Hypothesis Hinit : cuInit lib 0 = Returned 0 tt.

Lemma cuda_count_failed c slot w :
  cuDeviceGetCount lib = Returned c slot -> c ≠ 0 ->
  test_cuda h w =
    (Normal false,
     World (stdout w ++ cuda_initialised_lines h
              ++ ["✗ cuDeviceGetCount failed with code: " +:+ pretty c])
           (stderr w)
           (trace w ++ [Load "libcuda.so"; Call "cuInit";
                        Call "cuDeviceGetCount"])).
Proof.
  intros Hcount Hc. unfold test_cuda. py_unfold.
  answer Hload. answer Hinit. branch. answer Hcount. branch.
  by rewrite <- !app_assoc.
Qed.

Lemma cuda_zero_devices w :
  cuDeviceGetCount lib = Returned 0 0 ->
  test_cuda h w =
    (Normal false,
     World (stdout w ++ cuda_initialised_lines h
              ++ ["✓ Found " +:+ pretty 0 +:+ " CUDA device(s)"])
           (stderr w)
           (trace w ++ [Load "libcuda.so"; Call "cuInit";
                        Call "cuDeviceGetCount"])).
Proof.
  intros Hcount. unfold test_cuda. py_unfold.
  answer Hload. answer Hinit. branch. answer Hcount. branch. branch.
  by rewrite <- !app_assoc.
Qed.

Lemma cuda_handle_failed n c slot w :
  cuDeviceGetCount lib = Returned 0 n -> n ≠ 0 ->
  cuDeviceGet lib 0 = Returned c slot -> c ≠ 0 ->
  test_cuda h w =
    (Normal false,
     World (stdout w ++ cuda_initialised_lines h
              ++ ["✓ Found " +:+ pretty n +:+ " CUDA device(s)";
                  "✗ cuDeviceGet failed: " +:+ pretty c])
           (stderr w)
           (trace w ++ [Load "libcuda.so"; Call "cuInit";
                        Call "cuDeviceGetCount"; Call "cuDeviceGet"])).
Proof.
  intros Hcount Hn Hget Hc. unfold test_cuda. py_unfold.
  answer Hload. answer Hinit. branch. answer Hcount. branch. branch.
  answer Hget. branch.
  by rewrite <- !app_assoc.
Qed.

(** C1, as amended: once the count query has returned status 0 with
    [n > 0] devices and the handle of device 0 was fetched with status 0,
    [test_cuda] returns [True] and its report shows [n], whatever status
    the name and the total-memory queries return; a non-zero status only
    leaves the corresponding line out. *)
Theorem cuda_enrichment_status_nonfatal n device rn name rm total_mem w :
  cuDeviceGetCount lib = Returned 0 n -> n > 0 ->
  cuDeviceGet lib 0 = Returned 0 device ->
  cuDeviceGetName lib 256 device = Returned rn name ->
  (rn = 0 -> utf8_valid (buffer_value name)) ->
  cuDeviceTotalMem_v2 lib device = Returned rm total_mem ->
  0 <= total_mem < 2 ^ 64 ->
  exists gb,
    int_truediv total_mem (1024 ^ 3) w = (Normal gb, w)
    /\ test_cuda h w =
         (Normal true,
          World
            (stdout w ++ cuda_initialised_lines h
               ++ ["✓ Found " +:+ pretty n +:+ " CUDA device(s)"]
               ++ (if decide (rn = 0)
                   then ["✓ Device 0: "
                           +:+ string_of_list_byte (buffer_value name)]
                   else [])
               ++ (if decide (rm = 0)
                   then ["✓ Total memory: " +:+ format_1f gb +:+ " GB"]
                   else []))
            (stderr w)
            (trace w ++ [Load "libcuda.so"; Call "cuInit";
                         Call "cuDeviceGetCount"; Call "cuDeviceGet";
                         Call "cuDeviceGetName";
                         Call "cuDeviceTotalMem_v2"])).
Proof.
  intros Hcount Hn Hget Hname Hutf8 Hmem Hrange.
  destruct (int_truediv_size_t total_mem Hrange) as [gb Hgb].
  exists gb. split; [apply Hgb|].
  unfold test_cuda. py_unfold.
  answer Hload. answer Hinit. branch. answer Hcount. branch. branch.
  answer Hget. branch. answer Hname.
  destruct (decide (rn = 0)) as [Hrn|Hrn]; py_unfold.
  - unfold decode. rewrite (Is_true_true_1 _ (Hutf8 Hrn)). py_unfold.
    answer Hmem.
    destruct (decide (rm = 0)); py_unfold; [answer Hgb|];
      by rewrite <- !app_assoc.
  - answer Hmem.
    destruct (decide (rm = 0)); py_unfold; [answer Hgb|];
      by rewrite <- !app_assoc.
Qed.
End cuda.

Lemma cuda_enrichment_status_nonfatal_witness :
  exists gb,
    int_truediv 0 (1024 ^ 3) fresh = (Normal gb, fresh)
    /\ Cuda.test_cuda (Examples.cuda_host Examples.cuda_no_memory) fresh
        = (Normal true,
           World
             ["=== CUDA Driver Test ==="; "LD_LIBRARY_PATH: not set";
              "✓ Loaded libcuda.so"; "✓ cuInit succeeded";
              "✓ Found 1 CUDA device(s)"; "✓ Device 0: NVIDIA L4"]
             []
             [Load "libcuda.so"; Call "cuInit"; Call "cuDeviceGetCount";
              Call "cuDeviceGet"; Call "cuDeviceGetName";
              Call "cuDeviceTotalMem_v2"]).
Proof.
  apply (cuda_enrichment_status_nonfatal
           (Examples.cuda_host Examples.cuda_no_memory)
           Examples.cuda_no_memory eq_refl eq_refl
           1 0 0 (Examples.name_buffer "NVIDIA L4") 1 0 fresh);
    [reflexivity | lia | reflexivity | reflexivity
    | intros _; vm_compute; exact I | reflexivity | lia].
Defined.

(** Both optional queries answer an error: still [True], two lines less. *)
Example cuda_no_enrichment_succeeds :
  Cuda.test_cuda (Examples.cuda_host Examples.cuda_no_enrichment) fresh
  = (Normal true,
     World
       ["=== CUDA Driver Test ==="; "LD_LIBRARY_PATH: not set";
        "✓ Loaded libcuda.so"; "✓ cuInit succeeded";
        "✓ Found 2 CUDA device(s)"]
       []
       [Load "libcuda.so"; Call "cuInit"; Call "cuDeviceGetCount";
        Call "cuDeviceGet"; Call "cuDeviceGetName";
        Call "cuDeviceTotalMem_v2"]).
Proof. reflexivity. Qed.

(** C1, as stated, fails: the count query reports one device, the fetch of
    its handle answers an error, and [test_cuda] returns [False]. *)
Lemma cuda_handle_failure_fails :
  Cuda.cuDeviceGetCount Examples.cuda_no_handle = Returned 0 1
  /\ Cuda.cuDeviceGet Examples.cuda_no_handle 0 = Returned 101 0
  /\ (Cuda.test_cuda (Examples.cuda_host Examples.cuda_no_handle) fresh).1
       = Normal false.
Proof. repeat split. Qed.

(** ** test-nvml.py: the search loop *)

Section nvml_search.
Import Nvml.
Context (h : host).

Lemma load_line_fails path :
  load_fails h path ->
  exists cls msg,
    dlopen h path = LoadError cls msg
    /\ isinstance_OSError (Exception cls msg) = true
    /\ load_line h path = "✗ Failed to load " +:+ path +:+ ": " +:+ msg.
Proof.
  unfold load_fails, load_line.
  destruct (dlopen h path) as [?|cls msg]; [done|].
  intros He. exists cls, msg. by rewrite (Is_true_true_1 _ He).
Qed.

(** One failing candidate: a line, an attempt, and the loop goes on. *)
Lemma load_loop_skip path rest w :
  load_fails h path ->
  load_loop h (path :: rest) w =
    load_loop h rest
      (World (stdout w ++ [load_line h path]) (stderr w)
             (trace w ++ [Load path])).
Proof.
  intros (cls & msg & Hopen & Hos & ->)%load_line_fails.
  cbn [load_loop]. py_unfold. answer Hopen. by rewrite Hos.
Qed.

(** A loading candidate ends the loop: the rest is not looked at. *)
Lemma load_loop_break path rest lib w :
  dlopen h path = Loaded lib ->
  load_loop h (path :: rest) w =
    (Normal (Some lib),
     World (stdout w ++ [load_line h path]) (stderr w)
           (trace w ++ [Load path])).
Proof.
  intros Hopen. cbn [load_loop]. unfold load_line. py_unfold.
  by answer Hopen.
Qed.

Lemma load_loop_none paths w :
  Forall (fun path => load_fails h path) paths ->
  load_loop h paths w =
    (Normal None,
     World (stdout w ++ (load_line h <$> paths)) (stderr w)
           (trace w ++ (Load <$> paths))).
Proof.
  intros Hall. revert w.
  induction Hall as [|path rest Hpath _ IH]; intros w.
  - cbn. rewrite !app_nil_r. by destruct w.
  - rewrite load_loop_skip by done. rewrite IH. cbn [stdout stderr trace].
    by rewrite <- !app_assoc.
Qed.

Lemma load_loop_first pre path post lib w :
  Forall (fun path => load_fails h path) pre ->
  dlopen h path = Loaded lib ->
  load_loop h (pre ++ path :: post) w =
    (Normal (Some lib),
     World (stdout w ++ (load_line h <$> pre ++ [path])) (stderr w)
           (trace w ++ (Load <$> pre ++ [path]))).
Proof.
  intros Hpre Hopen. revert w.
  induction Hpre as [|skipped pre Hskipped _ IH]; intros w.
  - by apply load_loop_break.
  - cbn [app]. rewrite load_loop_skip by done. rewrite IH.
    cbn [stdout stderr trace]. by rewrite <- !app_assoc.
Qed.
End nvml_search.

Lemma loads_app t1 t2 : loads (t1 ++ t2) = loads t1 ++ loads t2.
Proof. apply omap_app. Qed.

Lemma calls_app t1 t2 : calls (t1 ++ t2) = calls t1 ++ calls t2.
Proof. apply omap_app. Qed.

Lemma loads_Load paths : loads (Load <$> paths) = paths.
Proof. induction paths as [|? ? IH]; [done|]. cbn. by f_equal. Qed.

Lemma calls_Load paths : calls (Load <$> paths) = [].
Proof. by induction paths. Qed.

Lemma loads_Call symbols : loads (Call <$> symbols) = [].
Proof. by induction symbols. Qed.

Lemma calls_Call symbols : calls (Call <$> symbols) = symbols.
Proof. induction symbols as [|? ? IH]; [done|]. cbn. by f_equal. Qed.

(** ** test-nvml.py: after the search *)

(** C4: when no candidate loads (the empty list included), [test_nvml]
    returns [False] right after the loop: it prints one failure line per
    candidate and then the line saying that no library could be loaded,
    and the run consists of the load attempts only, so that no foreign
    function, initialization first of all, is called. *)
Theorem nvml_no_candidate_loads (h : Nvml.host) (paths : list string) w :
  Forall (fun path => load_fails h path) paths ->
  Nvml.test_nvml_over paths h w =
    (Normal false,
     World (stdout w ++ (load_line h <$> paths)
              ++ ["ERROR: Could not load NVML library"])
           (stderr w) (trace w ++ (Load <$> paths)))
  /\ calls (trace (Nvml.test_nvml_over paths h w).2) = calls (trace w)
  /\ count_occ string_dec
       (calls (trace (Nvml.test_nvml_over paths h fresh).2)) "nvmlInit_v2"
     = 0%nat.
Proof.
  intros Hall.
  assert (forall w0, Nvml.test_nvml_over paths h w0 =
    (Normal false,
     World (stdout w0 ++ (load_line h <$> paths)
              ++ ["ERROR: Could not load NVML library"])
           (stderr w0) (trace w0 ++ (Load <$> paths)))) as Hrun.
  { intros w0. unfold Nvml.test_nvml_over. py_unfold.
    rewrite load_loop_none by done. py_unfold. by rewrite <- app_assoc. }
  split; [apply Hrun|]. rewrite !Hrun. cbn [snd trace].
  rewrite !calls_app, !calls_Load, app_nil_r. done.
Qed.

Lemma nvml_no_candidate_loads_witness :
  Nvml.test_nvml Examples.nvml_absent fresh =
    (Normal false,
     World
       ((load_line Examples.nvml_absent <$> Nvml.lib_paths)
          ++ ["ERROR: Could not load NVML library"])
       [] (Load <$> Nvml.lib_paths))
  /\ calls (trace (Nvml.test_nvml Examples.nvml_absent fresh).2) = []
  /\ count_occ string_dec
       (calls (trace (Nvml.test_nvml Examples.nvml_absent fresh).2))
       "nvmlInit_v2" = 0%nat.
Proof.
  apply (nvml_no_candidate_loads Examples.nvml_absent Nvml.lib_paths fresh).
  repeat constructor.
Defined.

Section nvml_loaded.
Import Nvml.
Context (h : host) (pre post : list string) (path : string) (lib : library).
Hypothesis Hpre : Forall (fun path => load_fails h path) pre.
Hypothesis Hpath : dlopen h path = Loaded lib.

Ltac search :=
  unfold test_nvml_over, searched; py_unfold;
  rewrite (load_loop_first h pre path post lib) by done; py_unfold.

Ltac tidy := cbn [fmap list_fmap]; by rewrite <- ?app_assoc.

Lemma nvml_init_failed c u w :
  nvmlInit_v2 lib = Returned c u -> c ≠ 0 ->
  test_nvml_over (pre ++ path :: post) h w =
    (Normal false,
     searched h (pre ++ [path]) w
       ["✗ nvmlInit_v2 failed with code: " +:+ pretty c;
        "   Error name: " +:+ default "UNKNOWN" (error_names !! c)]
       ["nvmlInit_v2"]).
Proof. intros Hinit Hc. search. answer Hinit. branch. tidy. Qed.

Lemma nvml_init_raised cls msg w :
  nvmlInit_v2 lib = Raised cls msg ->
  test_nvml_over (pre ++ path :: post) h w =
    (Normal false,
     searched h (pre ++ [path]) w ["✗ nvmlInit_v2 exception: " +:+ msg]
       ["nvmlInit_v2"]).
Proof. intros Hinit. search. answer Hinit. tidy. Qed.

Hypothesis Hinit : nvmlInit_v2 lib = Returned 0 tt.

Lemma nvml_count_failed c slot w :
  nvmlDeviceGetCount_v2 lib = Returned c slot -> c ≠ 0 ->
  test_nvml_over (pre ++ path :: post) h w =
    (Normal false,
     searched h (pre ++ [path]) w
       ["✓ nvmlInit_v2 succeeded";
        "✗ nvmlDeviceGetCount failed with code: " +:+ pretty c]
       ["nvmlInit_v2"; "nvmlDeviceGetCount_v2"]).
Proof.
  intros Hcount Hc. search. answer Hinit. branch. answer Hcount. branch.
  tidy.
Qed.

Lemma nvml_count_raised cls msg w :
  nvmlDeviceGetCount_v2 lib = Raised cls msg ->
  test_nvml_over (pre ++ path :: post) h w =
    (Normal false,
     searched h (pre ++ [path]) w
       ["✓ nvmlInit_v2 succeeded";
        "✗ nvmlDeviceGetCount exception: " +:+ msg]
       ["nvmlInit_v2"; "nvmlDeviceGetCount_v2"]).
Proof.
  intros Hcount. search. answer Hinit. branch. answer Hcount. tidy.
Qed.

(** A count query that returns status 0 is followed by one call of
    [nvmlShutdown], whose status is dropped. *)
Lemma nvml_counted n status u w :
  nvmlDeviceGetCount_v2 lib = Returned 0 n ->
  nvmlShutdown lib = Returned status u ->
  test_nvml_over (pre ++ path :: post) h w =
    (Normal (bool_decide (n > 0)),
     searched h (pre ++ [path]) w
       ["✓ nvmlInit_v2 succeeded";
        "✓ Found " +:+ pretty n +:+ " GPU(s)"]
       ["nvmlInit_v2"; "nvmlDeviceGetCount_v2"; "nvmlShutdown"]).
Proof.
  intros Hcount Hshutdown. search. answer Hinit. branch. answer Hcount.
  branch. answer Hshutdown. tidy.
Qed.
End nvml_loaded.

(** C5: the candidates are attempted in list order.  When [path] is the
    first candidate that loads, every candidate before it was attempted
    and left its failure line, [path] is reported as the library in use,
    and whatever the later calls answer, the load attempts of the whole run
    are exactly the candidates up to [path]: those after it are never
    attempted. *)
Theorem nvml_candidates_in_order (h : Nvml.host) pre path post lib w :
  Forall (fun path => load_fails h path) pre ->
  Nvml.dlopen h path = Loaded lib ->
  Nvml.load_loop h (pre ++ path :: post) w =
    (Normal (Some lib),
     World (stdout w ++ (load_line h <$> pre ++ [path])) (stderr w)
           (trace w ++ (Load <$> pre ++ [path])))
  /\ loads (trace (Nvml.test_nvml_over (pre ++ path :: post) h w).2)
     = loads (trace w) ++ pre ++ [path]
  /\ (stdout w ++ (load_line h <$> pre ++ [path]))
       `prefix_of` stdout (Nvml.test_nvml_over (pre ++ path :: post) h w).2
  /\ load_line h path = "✓ Loaded NVML from: " +:+ path
  /\ Forall (fun skipped => exists cls msg,
               Nvml.dlopen h skipped = LoadError cls msg
               /\ load_line h skipped
                  = "✗ Failed to load " +:+ skipped +:+ ": " +:+ msg)
       pre.
Proof.
  intros Hpre Hpath.
  split; [by apply load_loop_first|].
  assert (load_line h path = "✓ Loaded NVML from: " +:+ path) as Hline
    by (unfold load_line; by rewrite Hpath).
  split; [|split; [|split; [done|]]].
  - unfold Nvml.test_nvml_over. py_unfold.
    rewrite (load_loop_first h pre path post lib) by done. py_unfold.
    repeat every_answer;
      cbn [snd trace]; rewrite !loads_app, loads_Load; cbn [loads omap];
      by rewrite ?app_nil_r.
  - unfold Nvml.test_nvml_over. py_unfold.
    rewrite (load_loop_first h pre path post lib) by done. py_unfold.
    repeat every_answer;
      cbn [snd stdout]; repeat first [reflexivity | apply prefix_app_r].
  - eapply Forall_impl; [exact Hpre|]. intros skipped Hskipped. cbn beta in *.
    apply load_line_fails in Hskipped as (cls & msg & ? & _ & ?). eauto.
Qed.

Lemma nvml_candidates_in_order_witness :
  loads (trace (Nvml.test_nvml (Examples.nvml_host Examples.nvml_two_gpus)
                  fresh).2)
  = ["libnvidia-ml.so.1"; "libnvidia-ml.so"].
Proof.
  apply (nvml_candidates_in_order
           (Examples.nvml_host Examples.nvml_two_gpus)
           ["libnvidia-ml.so.1"] "libnvidia-ml.so"
           ["/usr/lib/x86_64-linux-gnu/libnvidia-ml.so.1"]
           Examples.nvml_two_gpus fresh);
    [repeat constructor | reflexivity].
Defined.

(** ** The processes *)

(** [main] of test-cuda.py when [test_cuda] returns: an empty line, the
    verdict, and the exit code that goes with it. *)
Lemma cuda_main_returns (h : Cuda.host) (success : bool) w :
  Cuda.test_cuda h fresh = (Normal success, w) ->
  run_script (Cuda.main h) =
    Process (stdout w ++ [""; Cuda.verdict success]) (stderr w) (trace w)
            (if success then 0 else 1).
Proof.
  intros Hrun. unfold run_script, Cuda.main. py_unfold. answer Hrun.
  rewrite app_snoc2. by destruct success.
Qed.

(** When [test_cuda] raises, nothing catches it: no verdict is printed. *)
Lemma cuda_main_raises (h : Cuda.host) cls msg w :
  Cuda.test_cuda h fresh = (Throw (Exception cls msg), w) ->
  run_script (Cuda.main h) =
    Process (stdout w) (stderr w ++ [traceback (Exception cls msg)])
            (trace w) 1.
Proof. intros Hrun. unfold run_script, Cuda.main. py_unfold. by answer Hrun. Qed.

Lemma nvml_main_returns (h : Nvml.host) paths (success : bool) w :
  Nvml.test_nvml_over paths h (World (nvml_header h) [] []) = (Normal success, w) ->
  run_script (Nvml.main_over paths h) =
    Process (stdout w ++ [""; Nvml.verdict success]) (stderr w) (trace w)
            (if success then 0 else 1).
Proof.
  intros Hrun. unfold run_script, Nvml.main_over. py_unfold.
  change (Nvml.test_nvml_over paths h _)
    with (Nvml.test_nvml_over paths h (World (nvml_header h) [] [])).
  answer Hrun. rewrite app_snoc2. by destruct success.
Qed.

Lemma nvml_main_raises (h : Nvml.host) paths cls msg w :
  Nvml.test_nvml_over paths h (World (nvml_header h) [] [])
    = (Throw (Exception cls msg), w) ->
  run_script (Nvml.main_over paths h) =
    Process (stdout w) (stderr w ++ [traceback (Exception cls msg)])
            (trace w) 1.
Proof.
  intros Hrun. unfold run_script, Nvml.main_over. py_unfold.
  change (Nvml.test_nvml_over paths h _)
    with (Nvml.test_nvml_over paths h (World (nvml_header h) [] [])).
  by answer Hrun.
Qed.

(** The entries of the lookup table. *)
Lemma error_names_dom : dom Nvml.error_names = {[1; 2; 3; 9; 12; 255]}.
Proof. unfold Nvml.error_names. rewrite !dom_insert_L, dom_empty_L. set_solver. Qed.

Lemma error_names_absent (c : Z) :
  c ∉ [1; 2; 3; 9; 12; 255] -> Nvml.error_names !! c = None.
Proof.
  intros Hc. unfold Nvml.error_names.
  rewrite !lookup_insert_ne; [done|intros <-; apply Hc; set_solver..].
Qed.

(** C6: when the library loads and [nvmlInit_v2] returns a code [c] other
    than 0, [test_nvml] returns [False], and the report carries the name
    that the table gives to [c], or UNKNOWN when the table has none; the
    process exits with code 1.  Code 9 is named
    NVML_ERROR_DRIVER_NOT_LOADED. *)
Theorem nvml_init_error_named (h : Nvml.host) pre path post lib c u :
  Forall (fun path => load_fails h path) pre ->
  Nvml.dlopen h path = Loaded lib ->
  Nvml.nvmlInit_v2 lib = Returned c u ->
  c ≠ 0 ->
  let name := default "UNKNOWN" (Nvml.error_names !! c) in
  let report := run_script (Nvml.main_over (pre ++ path :: post) h) in
  (forall w, (Nvml.test_nvml_over (pre ++ path :: post) h w).1 = Normal false)
  /\ In ("   Error name: " +:+ name) (p_stdout report)
  /\ exit_code report = 1
  /\ last (p_stdout report) = Some "Result: NO GPU FOUND"
  /\ (forall known, Nvml.error_names !! c = Some known -> name = known)
  /\ (c ∉ dom Nvml.error_names -> name = "UNKNOWN")
  /\ (c = 9 -> name = "NVML_ERROR_DRIVER_NOT_LOADED").
Proof.
  intros Hpre Hpath Hinit Hc name report.
  pose proof (nvml_init_failed h pre post path lib Hpre Hpath c u) as Hrun.
  split; [intros w; by rewrite Hrun|].
  subst report.
  rewrite (nvml_main_returns h _ false _ (Hrun _ Hinit Hc)).
  cbn [p_stdout exit_code searched stdout].
  split; [|split; [done|split]].
  - rewrite !in_app_iff. left. right. right. right. cbn. tauto.
  - apply last_snoc2.
  - subst name. split; [by intros known ->|].
    split; [by intros ->%not_elem_of_dom|]. by intros ->.
Qed.

Lemma nvml_init_error_named_witness :
  In "   Error name: NVML_ERROR_DRIVER_NOT_LOADED"
    (p_stdout (run_script
                 (Nvml.main (Examples.nvml_host Examples.nvml_driver_not_loaded))))
  /\ exit_code (run_script
                  (Nvml.main (Examples.nvml_host Examples.nvml_driver_not_loaded)))
     = 1.
Proof.
  pose proof (nvml_init_error_named
                (Examples.nvml_host Examples.nvml_driver_not_loaded)
                ["libnvidia-ml.so.1"] "libnvidia-ml.so"
                ["/usr/lib/x86_64-linux-gnu/libnvidia-ml.so.1"]
                Examples.nvml_driver_not_loaded 9 tt) as Hnamed.
  destruct Hnamed as (_ & Hline & Hexit & _);
    [repeat constructor | reflexivity | reflexivity | lia |].
  split; [exact Hline | exact Hexit].
Defined.

(** ** Zero devices *)

Lemma found_zero_is_no_count_error (probe api : string) (c : Z) :
  "✓ Found " +:+ pretty 0 +:+ probe
  ≠ "✗ " +:+ api +:+ " failed with code: " +:+ pretty c.
Proof. cbn. discriminate. Qed.

(** C7: when initialization succeeds and the count query returns status 0
    and count 0, the probe returns [False] and the last line of its report
    is the line that found 0 devices; a count query that returns a
    non-zero status also returns [False], but ends the report with a
    different line, the one that carries the status.  First [test_cuda],
    then [test_nvml], which returns [False] once [nvmlShutdown] has
    returned (with any status); the found-0 line is its last line whatever
    [nvmlShutdown] does. *)
Theorem zero_devices_distinct_from_count_error :
  (forall (h : Cuda.host) lib w,
     Cuda.dlopen h "libcuda.so" = Loaded lib ->
     Cuda.cuInit lib 0 = Returned 0 tt ->
     Cuda.cuDeviceGetCount lib = Returned 0 0 ->
     (Cuda.test_cuda h w).1 = Normal false
     /\ last (stdout (Cuda.test_cuda h w).2) = Some "✓ Found 0 CUDA device(s)"
     /\ forall (h' : Cuda.host) lib' w' c slot,
          Cuda.dlopen h' "libcuda.so" = Loaded lib' ->
          Cuda.cuInit lib' 0 = Returned 0 tt ->
          Cuda.cuDeviceGetCount lib' = Returned c slot -> c ≠ 0 ->
          (Cuda.test_cuda h' w').1 = Normal false
          /\ last (stdout (Cuda.test_cuda h' w').2)
             = Some ("✗ cuDeviceGetCount failed with code: " +:+ pretty c)
          /\ last (stdout (Cuda.test_cuda h w).2)
             ≠ last (stdout (Cuda.test_cuda h' w').2))
  /\ (forall (h : Nvml.host) pre path post lib w,
        Forall (fun path => load_fails h path) pre ->
        Nvml.dlopen h path = Loaded lib ->
        Nvml.nvmlInit_v2 lib = Returned 0 tt ->
        Nvml.nvmlDeviceGetCount_v2 lib = Returned 0 0 ->
        (forall status u,
           Nvml.nvmlShutdown lib = Returned status u ->
           Nvml.test_nvml_over (pre ++ path :: post) h w =
             (Normal false,
              searched h (pre ++ [path]) w
                ["✓ nvmlInit_v2 succeeded"; "✓ Found 0 GPU(s)"]
                nvml_call_order))
        /\ succeeded (Nvml.test_nvml_over (pre ++ path :: post) h w) = false
        /\ last (stdout (Nvml.test_nvml_over (pre ++ path :: post) h w).2)
           = Some "✓ Found 0 GPU(s)"
        /\ forall (h' : Nvml.host) pre' path' post' lib' w' c slot,
             Forall (fun path => load_fails h' path) pre' ->
             Nvml.dlopen h' path' = Loaded lib' ->
             Nvml.nvmlInit_v2 lib' = Returned 0 tt ->
             Nvml.nvmlDeviceGetCount_v2 lib' = Returned c slot -> c ≠ 0 ->
             (Nvml.test_nvml_over (pre' ++ path' :: post') h' w').1
             = Normal false
             /\ last (stdout
                        (Nvml.test_nvml_over (pre' ++ path' :: post') h' w').2)
                = Some ("✗ nvmlDeviceGetCount failed with code: "
                          +:+ pretty c)
             /\ last (stdout
                        (Nvml.test_nvml_over (pre ++ path :: post) h w).2)
                ≠ last (stdout
                          (Nvml.test_nvml_over (pre' ++ path' :: post') h' w').2)).
Proof.
  split.
  - intros h lib w Hload Hinit Hzero.
    rewrite (cuda_zero_devices h lib Hload Hinit w Hzero). cbn [fst snd stdout].
    assert (forall l : string,
              last (stdout w ++ cuda_initialised_lines h ++ [l]) = Some l)
      as Hlast by (intros l; by rewrite !app_assoc, last_snoc).
    rewrite Hlast. split; [done|split; [done|]].
    intros h' lib' w' c slot Hload' Hinit' Hcount Hc.
    rewrite (cuda_count_failed h' lib' Hload' Hinit' c slot w' Hcount Hc).
    cbn [fst snd stdout]. rewrite !app_assoc, last_snoc.
    split; [done|split; [done|]].
    intros Heq%(inj Some).
    exact (found_zero_is_no_count_error " CUDA device(s)" "cuDeviceGetCount"
             c Heq).
  - intros h pre path post lib w Hpre Hpath Hinit Hzero.
    assert (forall lines symbols l,
              last (stdout (searched h (pre ++ [path]) w (lines ++ [l]) symbols))
              = Some l) as Hlast.
    { intros lines symbols l. cbn [searched stdout].
      by rewrite !app_assoc, last_snoc. }
    assert (forall status u,
              Nvml.nvmlShutdown lib = Returned status u ->
              Nvml.test_nvml_over (pre ++ path :: post) h w =
                (Normal false,
                 searched h (pre ++ [path]) w
                   ["✓ nvmlInit_v2 succeeded"; "✓ Found 0 GPU(s)"]
                   nvml_call_order)) as Hreturned.
    { intros status u Hshutdown.
      exact (nvml_counted h pre post path lib Hpre Hpath Hinit 0 status u w
               Hzero Hshutdown). }
    assert (succeeded (Nvml.test_nvml_over (pre ++ path :: post) h w) = false
            /\ last (stdout (Nvml.test_nvml_over (pre ++ path :: post) h w).2)
               = Some "✓ Found 0 GPU(s)") as [Hfailed Hline].
    { destruct (Nvml.nvmlShutdown lib) as [status u|cls msg] eqn:Hshutdown.
      - rewrite (Hreturned status u eq_refl).
        split; [done|].
        apply (Hlast ["✓ nvmlInit_v2 succeeded"] _ "✓ Found 0 GPU(s)").
      - unfold Nvml.test_nvml_over, succeeded. py_unfold.
        rewrite (load_loop_first h pre path post lib) by done. py_unfold.
        answer Hinit. branch. answer Hzero. branch. answer Hshutdown.
        cbn [fst snd stdout]. split; [done|]. apply last_snoc. }
    split; [exact Hreturned|]. split; [done|split; [done|]]. rewrite Hline.
    intros h' pre' path' post' lib' w' c slot Hpre' Hpath' Hinit' Hcount Hc.
    rewrite (nvml_count_failed h' pre' post' path' lib' Hpre' Hpath' Hinit'
               c slot w' Hcount Hc).
    cbn [fst snd searched stdout]. rewrite !app_assoc.
    rewrite (last_snoc2 _ "✓ nvmlInit_v2 succeeded").
    split; [done|split; [done|]].
    intros Heq%(inj Some).
    exact (found_zero_is_no_count_error " GPU(s)" "nvmlDeviceGetCount" c Heq).
Qed.

Lemma zero_devices_distinct_from_count_error_witness :
  ((Cuda.test_cuda (Examples.cuda_host Examples.cuda_no_devices) fresh).1
     = Normal false
   /\ last (stdout (Cuda.test_cuda (Examples.cuda_host Examples.cuda_no_devices)
                      fresh).2)
      ≠ last (stdout (Cuda.test_cuda
                        (Examples.cuda_host Examples.cuda_count_error) fresh).2))
  /\ (Nvml.test_nvml (Examples.nvml_host Examples.nvml_no_gpus) fresh
      = (Normal false,
         searched (Examples.nvml_host Examples.nvml_no_gpus)
           ["libnvidia-ml.so.1"; "libnvidia-ml.so"] fresh
           ["✓ nvmlInit_v2 succeeded"; "✓ Found 0 GPU(s)"]
           nvml_call_order)
      /\ (Nvml.test_nvml (Examples.nvml_host Examples.nvml_count_error)
            fresh).1
         = Normal false
      /\ last (stdout (Nvml.test_nvml (Examples.nvml_host Examples.nvml_no_gpus)
                         fresh).2)
         ≠ last (stdout (Nvml.test_nvml
                           (Examples.nvml_host Examples.nvml_count_error)
                           fresh).2)).
Proof.
  destruct zero_devices_distinct_from_count_error as [Hcuda Hnvml]. split.
  - destruct (Hcuda (Examples.cuda_host Examples.cuda_no_devices)
                Examples.cuda_no_devices fresh)
      as (Hfalse & _ & Hother); [reflexivity..|].
    split; [exact Hfalse|].
    apply (Hother (Examples.cuda_host Examples.cuda_count_error)
             Examples.cuda_count_error fresh 100 0);
      [reflexivity | reflexivity | reflexivity | lia].
  - destruct (Hnvml (Examples.nvml_host Examples.nvml_no_gpus)
                ["libnvidia-ml.so.1"] "libnvidia-ml.so"
                ["/usr/lib/x86_64-linux-gnu/libnvidia-ml.so.1"]
                Examples.nvml_no_gpus fresh)
      as (Hreturned & _ & _ & Hother);
      [repeat constructor | reflexivity | reflexivity | reflexivity |].
    split; [exact (Hreturned 0 tt eq_refl)|].
    destruct (Hother (Examples.nvml_host Examples.nvml_count_error)
                ["libnvidia-ml.so.1"] "libnvidia-ml.so"
                ["/usr/lib/x86_64-linux-gnu/libnvidia-ml.so.1"]
                Examples.nvml_count_error fresh 999 0)
      as (Hfalse & _ & Hdiffer);
      [repeat constructor | reflexivity | reflexivity | reflexivity | lia |].
    split; [exact Hfalse | exact Hdiffer].
Defined.

(** ** Where the scripts fall short *)

(** A count query that returns status 0 is followed by exactly one call of
    [nvmlShutdown]. *)
Lemma nvml_shutdown_after_count (h : Nvml.host) pre path post lib n status u :
  Forall (fun path => load_fails h path) pre ->
  Nvml.dlopen h path = Loaded lib ->
  Nvml.nvmlInit_v2 lib = Returned 0 tt ->
  Nvml.nvmlDeviceGetCount_v2 lib = Returned 0 n ->
  Nvml.nvmlShutdown lib = Returned status u ->
  calls (trace (Nvml.test_nvml_over (pre ++ path :: post) h fresh).2)
  = ["nvmlInit_v2"; "nvmlDeviceGetCount_v2"; "nvmlShutdown"].
Proof.
  intros Hpre Hpath Hinit Hcount Hshutdown.
  rewrite (nvml_counted h pre post path lib Hpre Hpath Hinit n status u fresh
             Hcount Hshutdown).
  cbn [snd searched trace fresh app].
  by rewrite calls_app, calls_Load, calls_Call.
Qed.

(** C2 does not hold of [test_nvml]: with a library whose initialization
    succeeds and whose count query then returns a non-zero status, the
    function returns [False] from inside the [try] block, and
    [nvmlShutdown], which the source calls only after that block, is never
    called. *)
Theorem nvml_count_error_skips_shutdown :
  Nvml.nvmlInit_v2 Examples.nvml_count_error = Returned 0 tt
  /\ (Nvml.test_nvml (Examples.nvml_host Examples.nvml_count_error) fresh).1
     = Normal false
  /\ calls (trace (Nvml.test_nvml
                     (Examples.nvml_host Examples.nvml_count_error) fresh).2)
     = ["nvmlInit_v2"; "nvmlDeviceGetCount_v2"]
  /\ count_occ string_dec
       (calls (trace (Nvml.test_nvml
                        (Examples.nvml_host Examples.nvml_count_error)
                        fresh).2))
       "nvmlShutdown" = 0%nat.
Proof. repeat split. Qed.

(** C3 does not hold: [test_cuda] calls [cuInit] outside any [try], and
    [test_nvml] calls [nvmlShutdown] outside any [try]; when the loaded
    file lacks the symbol, the [AttributeError] leaves the function. *)
Theorem probes_let_exceptions_escape :
  (Cuda.test_cuda (Examples.cuda_host Examples.cuda_no_symbol) fresh).1
    = Throw (Exception AttributeError "undefined symbol: cuInit")
  /\ (Nvml.test_nvml (Examples.nvml_host Examples.nvml_no_shutdown) fresh).1
     = Throw (Exception AttributeError "undefined symbol: nvmlShutdown")
  /\ p_stderr (run_script
                 (Cuda.main (Examples.cuda_host Examples.cuda_no_symbol)))
     = [traceback (Exception AttributeError "undefined symbol: cuInit")].
Proof. repeat split. Qed.

(** Whenever the probe function returns, the report ends with the verdict
    that goes with the exit code. *)
Lemma cuda_verdict_agrees (h : Cuda.host) (success : bool) w :
  Cuda.test_cuda h fresh = (Normal success, w) ->
  exit_code (run_script (Cuda.main h)) = (if success then 0 else 1)
  /\ last (p_stdout (run_script (Cuda.main h)))
     = Some (if success then "Result: CUDA WORKS" else "Result: CUDA FAILED").
Proof.
  intros Hrun. rewrite (cuda_main_returns h success w Hrun).
  cbn [exit_code p_stdout]. rewrite last_snoc2. by destruct success.
Qed.

Lemma nvml_verdict_agrees (h : Nvml.host) paths (success : bool) w :
  Nvml.test_nvml_over paths h (World (nvml_header h) [] [])
    = (Normal success, w) ->
  exit_code (run_script (Nvml.main_over paths h)) = (if success then 0 else 1)
  /\ last (p_stdout (run_script (Nvml.main_over paths h)))
     = Some (if success then "Result: GPU DETECTED"
             else "Result: NO GPU FOUND").
Proof.
  intros Hrun. rewrite (nvml_main_returns h paths success w Hrun).
  cbn [exit_code p_stdout]. rewrite last_snoc2. by destruct success.
Qed.

(** C8 does not hold of a run in which the probe function raises: the
    process exits with code 1, but the report stops at the last line
    printed before the exception and carries no verdict line. *)
Theorem cuda_exception_leaves_no_verdict :
  exit_code (run_script (Cuda.main (Examples.cuda_host Examples.cuda_no_symbol)))
    = 1
  /\ p_stdout (run_script
                 (Cuda.main (Examples.cuda_host Examples.cuda_no_symbol)))
     = ["=== CUDA Driver Test ==="; "LD_LIBRARY_PATH: not set";
        "✓ Loaded libcuda.so"]
  /\ ~ In (Cuda.verdict false)
         (p_stdout (run_script
                      (Cuda.main (Examples.cuda_host Examples.cuda_no_symbol))))
  /\ ~ In (Cuda.verdict true)
         (p_stdout (run_script
                      (Cuda.main (Examples.cuda_host Examples.cuda_no_symbol)))).
Proof.
  split; [reflexivity|]. split; [reflexivity|].
  split; vm_compute; intros [H|[H|[H|[]]]]; discriminate H.
Qed.

(** ** End to end *)

(** No candidate loads: failure verdict, exit code 1. *)
Example scenario_load_fails :
  run_script (Nvml.main Examples.nvml_absent) =
    Process
      (nvml_header Examples.nvml_absent
         ++ (load_line Examples.nvml_absent <$> Nvml.lib_paths)
         ++ ["ERROR: Could not load NVML library"; "";
             "Result: NO GPU FOUND"])
      [] (Load <$> Nvml.lib_paths) 1.
Proof. reflexivity. Qed.

(** A candidate loads, initialization returns 0, two devices are counted:
    success verdict, exit code 0. *)
Example scenario_two_devices :
  run_script (Nvml.main (Examples.nvml_host Examples.nvml_two_gpus)) =
    Process
      (nvml_header (Examples.nvml_host Examples.nvml_two_gpus)
         ++ ["✗ Failed to load libnvidia-ml.so.1: " +:+ Examples.not_found;
             "✓ Loaded NVML from: libnvidia-ml.so";
             "✓ nvmlInit_v2 succeeded";
             "✓ Found 2 GPU(s)"; "";
             "Result: GPU DETECTED"])
      []
      [Load "libnvidia-ml.so.1"; Load "libnvidia-ml.so";
       Call "nvmlInit_v2"; Call "nvmlDeviceGetCount_v2"; Call "nvmlShutdown"]
      0.
Proof. reflexivity. Qed.

Example scenario_cuda_one_device :
  run_script (Cuda.main (Examples.cuda_host Examples.cuda_one_device)) =
    Process
      ["=== CUDA Driver Test ==="; "LD_LIBRARY_PATH: not set";
       "✓ Loaded libcuda.so"; "✓ cuInit succeeded";
       "✓ Found 1 CUDA device(s)"; "✓ Device 0: NVIDIA L4";
       "✓ Total memory: 8.0 GB"; ""; "Result: CUDA WORKS"]
      []
      [Load "libcuda.so"; Call "cuInit"; Call "cuDeviceGetCount";
       Call "cuDeviceGet"; Call "cuDeviceGetName"; Call "cuDeviceTotalMem_v2"]
      0.
Proof. reflexivity. Qed.

(** ** run_make.py *)

(** C10: once [make] has run, the wrapper prints its standard output,
    prints its standard error (on standard error) only when that is not
    empty, and then either prints the failure line and leaves through
    [sys.exit] with the return code of [make], when it is not 0, or prints
    the completion line and exits with 0.  The exit status is the return
    code itself when that is an exit code, from 0 to 255; when [make] was
    killed by a signal, so that its return code is negative, the status is
    that code modulo 256, still not 0. *)
Theorem run_make_reports_and_propagates (h : RunMake.host) result :
  RunMake.chdir h "/workspace/repo-76e8dc9d-020e-4ec1-93c2-ad0a593aa1a6" = None ->
  RunMake.run h ["make"; "oapi-generate"] = inl result ->
  run_script (RunMake.script h) =
    Process
      (["Running make oapi-generate..."; RunMake.out result]
         ++ (if decide (RunMake.returncode result ≠ 0)
             then ["Command failed with exit code "
                     +:+ pretty (RunMake.returncode result)]
             else [RunMake.newline +:+ "Generation complete!"]))
      (if decide (RunMake.err result ≠ "")
       then ["STDERR: " +:+ RunMake.err result] else [])
      []
      (RunMake.returncode result mod 256)
  /\ (0 <= RunMake.returncode result < 256 ->
      exit_code (run_script (RunMake.script h)) = RunMake.returncode result)
  /\ (RunMake.returncode result ≠ 0 ->
      -256 < RunMake.returncode result < 256 ->
      exit_code (run_script (RunMake.script h)) ≠ 0).
Proof.
  intros Hchdir Hrun.
  assert (run_script (RunMake.script h) =
    Process
      (["Running make oapi-generate..."; RunMake.out result]
         ++ (if decide (RunMake.returncode result ≠ 0)
             then ["Command failed with exit code "
                     +:+ pretty (RunMake.returncode result)]
             else [RunMake.newline +:+ "Generation complete!"]))
      (if decide (RunMake.err result ≠ "")
       then ["STDERR: " +:+ RunMake.err result] else [])
      []
      (RunMake.returncode result mod 256)) as Hprocess.
  { unfold run_script, RunMake.script, RunMake.os_chdir,
      RunMake.subprocess_run.
    py_unfold. answer Hchdir. answer Hrun.
    destruct (decide (RunMake.err result ≠ "")),
      (decide (RunMake.returncode result ≠ 0)) as [Hrc|Hrc]; py_unfold;
      try reflexivity.
    all: apply dec_stable in Hrc; by rewrite Hrc. }
  split; [exact Hprocess|]. rewrite Hprocess. cbn [exit_code].
  split.
  - intros Hcode. by apply Z.mod_small.
  - intros Hfailed Hrange Hzero.
    apply Z.mod_divide in Hzero as [q Hq]; lia.
Qed.

Lemma run_make_reports_and_propagates_witness :
  run_script
    (RunMake.script (Examples.make_host (RunMake.Completed "" "make: *** No rule to make target" 2)))
  = Process
      ["Running make oapi-generate..."; ""; "Command failed with exit code 2"]
      ["STDERR: make: *** No rule to make target"]
      [] 2
  /\ exit_code
       (run_script
          (RunMake.script
             (Examples.make_host
                (RunMake.Completed "" "make: *** No rule to make target" 2))))
     = 2
  /\ exit_code
       (run_script
          (RunMake.script
             (Examples.make_host
                (RunMake.Completed "" "make: *** No rule to make target" 2))))
     ≠ 0.
Proof.
  destruct (run_make_reports_and_propagates
              (Examples.make_host
                 (RunMake.Completed "" "make: *** No rule to make target" 2))
              (RunMake.Completed "" "make: *** No rule to make target" 2)
              eq_refl eq_refl) as (Hprocess & Hcode & Hfailed).
  split; [exact Hprocess|].
  split; [apply Hcode; cbn; lia | apply Hfailed; cbn; lia].
Defined.

(** A [make] killed by SIGKILL: the wrapper reports -9 and exits 247. *)
Example run_make_killed :
  run_script (RunMake.script (Examples.make_host (RunMake.Completed "" "" (-9))))
  = Process
      ["Running make oapi-generate..."; ""; "Command failed with exit code -9"]
      [] [] 247.
Proof. reflexivity. Qed.

(** * Further properties *)

(** ** The memory line *)

Lemma round_half_even_exact q den :
  0 < den -> round_half_even (q * den) den = q.
Proof.
  intros Hden. unfold round_half_even.
  rewrite Z.mod_mul, Z.div_mul by lia. rewrite Z.mul_0_r.
  destruct (Z.ltb_spec 0 den); [done | lia].
Qed.

Lemma nearest_binary64_whole k :
  0 < k < 2 ^ 34 ->
  nearest_binary64 (k * 1024 ^ 3) (1024 ^ 3)
  = Some (k * 2 ^ (52 - Z.log2 k), Z.log2 k - 52).
Proof.
  intros [Hk1 Hk2]. unfold nearest_binary64.
  change (1024 ^ 3) with (2 ^ 30).
  rewrite Z.log2_mul_pow2, Z.log2_pow2 by lia.
  assert (0 <= Z.log2 k < 34) as HL.
  { split; [apply Z.log2_nonneg|]. by apply Z.log2_lt_pow2. }
  destruct (Z.log2_spec k Hk1) as [Hlo Hhi].
  set (L := Z.log2 k) in *.
  cbv zeta. cbn [fst snd].
  replace (30 + L - 30 - 53) with (L - 53) by lia.
  rewrite (Z.max_r 0 (- (L - 53))), (Z.max_l 0 (L - 53)) by lia.
  replace (k * 2 ^ 30 * 2 ^ (- (L - 53))) with (k * 2 ^ (53 - L) * (2 ^ 30 * 2 ^ 0))
    by (replace (- (L - 53)) with (53 - L) by lia; change (2 ^ 0) with 1; lia).
  rewrite Z.div_mul by done.
  assert (2 ^ 53 <= k * 2 ^ (53 - L)).
  { replace 53 with (L + (53 - L)) at 1 by lia. rewrite Z.pow_add_r by lia.
    apply Z.mul_le_mono_nonneg_r; [apply Z.pow_nonneg|]; lia. }
  destruct (Z.ltb_spec (k * 2 ^ (53 - L)) (2 ^ 53)); [lia|].
  replace (L - 53 + 1) with (L - 52) by lia.
  rewrite (Z.max_l (L - 52) (-1074)) by lia.
  rewrite (Z.max_r 0 (- (L - 52))), (Z.max_l 0 (L - 52)) by lia.
  replace (k * 2 ^ 30 * 2 ^ (- (L - 52))) with (k * 2 ^ (52 - L) * (2 ^ 30 * 2 ^ 0))
    by (replace (- (L - 52)) with (52 - L) by lia; change (2 ^ 0) with 1; lia).
  rewrite round_half_even_exact by done.
  assert (k * 2 ^ (52 - L) < 2 ^ 53).
  { replace 53 with (Z.succ L + (52 - L)) by lia. rewrite Z.pow_add_r by lia.
    apply Z.mul_lt_mono_pos_r; [apply Z.pow_pos_nonneg|]; lia. }
  assert (0 < 2 ^ (L - 52 + 1074) <= 2 ^ 1055).
  { split; [apply Z.pow_pos_nonneg; lia | apply Z.pow_le_mono_r; lia]. }
  assert (0 < k * 2 ^ (52 - L)).
  { apply Z.mul_pos_pos; [|apply Z.pow_pos_nonneg]; lia. }
  assert (k * 2 ^ (52 - L) * 2 ^ (L - 52 + 1074) < 2 ^ 2098).
  { apply Z.le_lt_trans with (k * 2 ^ (52 - L) * 2 ^ 1055);
      [apply Z.mul_le_mono_nonneg_l; lia|].
    apply Z.lt_le_trans with (2 ^ 53 * 2 ^ 1055);
      [apply Z.mul_lt_mono_pos_r; lia|].
    rewrite <- Z.pow_add_r by lia. apply Z.pow_le_mono_r; lia. }
  destruct (Z.leb_spec (2 ^ 2098) (k * 2 ^ (52 - L) * 2 ^ (L - 52 + 1074)));
    [lia | done].
Qed.

(** Every whole number of GiB below 2^34 (all that a [c_size_t] holds) is
    displayed exactly, with the fractional digit 0. *)
Theorem whole_gib_display k w :
  0 <= k < 2 ^ 34 ->
  (gb ← int_truediv (k * 1024 ^ 3) (1024 ^ 3); mret (format_1f gb)) w
  = (Normal (pretty k +:+ ".0"), w).
Proof.
  intros Hk. unfold int_truediv.
  destruct (decide (1024 ^ 3 = 0)) as [|_]; [done|].
  destruct (decide (k * 1024 ^ 3 = 0)) as [Hz|Hnz].
  - assert (k = 0) as -> by lia. reflexivity.
  - assert (0 < k) as Hpos by lia.
    rewrite (Z.abs_eq (k * 1024 ^ 3)), (Z.abs_eq (1024 ^ 3)) by lia.
    rewrite nearest_binary64_whole by lia.
    assert (0 <= Z.log2 k < 34) as HL.
    { split; [apply Z.log2_nonneg|]. apply Z.log2_lt_pow2; lia. }
    cbv [mbind py_bind mret py_ret]. f_equal. f_equal.
    unfold format_1f. cbn [negative mant expo].
    destruct (Z.ltb_spec (k * 1024 ^ 3) 0); [lia|].
    destruct (Z.leb_spec 0 (Z.log2 k - 52)); [lia|].
    replace (- (Z.log2 k - 52)) with (52 - Z.log2 k) by lia.
    replace (k * 2 ^ (52 - Z.log2 k) * 10) with (k * 10 * 2 ^ (52 - Z.log2 k)) by lia.
    rewrite round_half_even_exact by (apply Z.pow_pos_nonneg; lia).
    rewrite Z.div_mul, Z.mod_mul by done. reflexivity.
Qed.

(** For no [c_size_t] does the memory line raise: the division by
    [1024 ** 3] neither overflows nor divides by zero. *)
Theorem memory_display_total total_mem w :
  0 <= total_mem < 2 ^ 64 ->
  exists text,
    (gb ← int_truediv total_mem (1024 ^ 3); mret (format_1f gb)) w
    = (Normal text, w).
Proof.
  intros Hrange. destruct (int_truediv_size_t total_mem Hrange) as [gb Hgb].
  exists (format_1f gb). cbv [mbind py_bind mret py_ret]. by rewrite Hgb.
Qed.

Lemma whole_gib_display_witness :
  (gb ← int_truediv (24 * 1024 ^ 3) (1024 ^ 3); mret (format_1f gb)) fresh
  = (Normal "24.0", fresh).
Proof. apply (whole_gib_display 24 fresh). lia. Defined.

Lemma memory_display_total_witness :
  exists text,
    (gb ← int_truediv (2 ^ 64 - 1) (1024 ^ 3); mret (format_1f gb)) fresh
    = (Normal text, fresh).
Proof. apply (memory_display_total (2 ^ 64 - 1) fresh). lia. Defined.

(** ** The device name *)

(** [.value] stops at the first NUL: what follows it in the buffer does
    not show. *)
Lemma buffer_value_terminated (bs rest : list byte) :
  Forall (fun b => b ≠ Byte.x00) bs ->
  buffer_value (bs ++ Byte.x00 :: rest) = bs.
Proof.
  induction 1 as [|b bs Hb _ IH]; [done|].
  cbn [app buffer_value]. destruct (Byte.eqb b Byte.x00) eqn:Heq.
  - by apply Byte.byte_dec_bl in Heq.
  - by rewrite IH.
Qed.

Lemma buffer_value_no_nul (buf : list byte) :
  Forall (fun b => b ≠ Byte.x00) (buffer_value buf).
Proof.
  induction buf as [|b buf IH]; [constructor|].
  cbn [buffer_value]. destruct (Byte.eqb b Byte.x00) eqn:Heq; [constructor|].
  constructor; [by apply Byte.eqb_false|done].
Qed.

(** ASCII text is well-formed UTF-8. *)
Lemma utf8_valid_ascii (bs : list byte) :
  Forall (fun b => in_range 0 127 b) bs -> utf8_valid bs.
Proof.
  induction 1 as [|b bs Hb _ IH]; [done|].
  cbn [utf8_valid]. by rewrite (Is_true_true_1 _ Hb).
Qed.

(** When the driver writes a NUL-terminated UTF-8 name into the buffer,
    the report shows exactly that name, whatever follows the NUL, and the
    run goes on to the memory query. *)
Theorem cuda_device_name_shown (h : Cuda.host) lib n device text rest w :
  Cuda.dlopen h "libcuda.so" = Loaded lib ->
  Cuda.cuInit lib 0 = Returned 0 tt ->
  Cuda.cuDeviceGetCount lib = Returned 0 n -> n ≠ 0 ->
  Cuda.cuDeviceGet lib 0 = Returned 0 device ->
  Cuda.cuDeviceGetName lib 256 device
    = Returned 0 (list_byte_of_string text ++ Byte.x00 :: rest) ->
  Forall (fun b => b ≠ Byte.x00) (list_byte_of_string text) ->
  utf8_valid (list_byte_of_string text) ->
  In ("✓ Device 0: " +:+ text) (stdout (Cuda.test_cuda h w).2)
  /\ In "cuDeviceTotalMem_v2" (calls (trace (Cuda.test_cuda h w).2)).
Proof.
  intros Hload Hinit Hcount Hn Hget Hname Hnul Hutf8.
  unfold Cuda.test_cuda. py_unfold.
  answer Hload. answer Hinit. branch. answer Hcount. branch. branch.
  answer Hget. branch. answer Hname. branch.
  unfold decode. rewrite buffer_value_terminated by done.
  rewrite (Is_true_true_1 _ Hutf8), string_of_list_byte_of_string. py_unfold.
  assert (forall l l' : list string,
            In ("✓ Device 0: " +:+ text) ((l ++ ["✓ Device 0: " +:+ text]) ++ l'))
    as Hin by (intros l l'; rewrite !in_app_iff; cbn; tauto).
  unfold int_truediv.
  repeat first
    [ progress py_unfold
    | case_decide
    | match goal with
      | |- context [match ?f with Returned _ _ => _ | Raised _ _ => _ end] =>
          destruct f as [? ?|? ?]
      | |- context [match nearest_binary64 ?a ?b with _ => _ end] =>
          destruct (nearest_binary64 a b) as [[? ?]|]
      end ];
    cbn [snd stdout trace];
    (split;
     [ first [apply (Hin _ []) | apply Hin | rewrite <- (app_nil_r (_ ++ [_])); apply Hin]
     | rewrite !calls_app; cbn [calls omap]; rewrite !in_app_iff; cbn; tauto ]).
Qed.

Lemma cuda_device_name_shown_witness :
  In "✓ Device 0: NVIDIA L4"
    (stdout (Cuda.test_cuda (Examples.cuda_host Examples.cuda_one_device)
               fresh).2)
  /\ In "cuDeviceTotalMem_v2"
       (calls (trace (Cuda.test_cuda
                        (Examples.cuda_host Examples.cuda_one_device) fresh).2)).
Proof.
  apply (cuda_device_name_shown (Examples.cuda_host Examples.cuda_one_device)
           Examples.cuda_one_device 1 0 "NVIDIA L4"
           (repeat Byte.x00 246) fresh);
    [reflexivity | reflexivity | reflexivity | lia | reflexivity | reflexivity
    | repeat constructor; discriminate | vm_compute; exact I].
Defined.

(** A name that is not well-formed UTF-8 makes [test_cuda] raise
    [UnicodeDecodeError]: nothing catches it, no device line is printed
    and the memory query is never made. *)
Theorem cuda_undecodable_name_raises (h : Cuda.host) lib n device name w :
  Cuda.dlopen h "libcuda.so" = Loaded lib ->
  Cuda.cuInit lib 0 = Returned 0 tt ->
  Cuda.cuDeviceGetCount lib = Returned 0 n -> n ≠ 0 ->
  Cuda.cuDeviceGet lib 0 = Returned 0 device ->
  Cuda.cuDeviceGetName lib 256 device = Returned 0 name ->
  utf8_valid (buffer_value name) = false ->
  Cuda.test_cuda h w =
    (Throw (Exception UnicodeDecodeError "'utf-8' codec can't decode bytes"),
     World (stdout w ++ cuda_initialised_lines h
              ++ ["✓ Found " +:+ pretty n +:+ " CUDA device(s)"])
           (stderr w)
           (trace w ++ [Load "libcuda.so"; Call "cuInit";
                        Call "cuDeviceGetCount"; Call "cuDeviceGet";
                        Call "cuDeviceGetName"])).
Proof.
  intros Hload Hinit Hcount Hn Hget Hname Hutf8.
  unfold Cuda.test_cuda. py_unfold.
  answer Hload. answer Hinit. branch. answer Hcount. branch. branch.
  answer Hget. branch. answer Hname. branch.
  unfold decode. rewrite Hutf8. py_unfold. by rewrite <- !app_assoc.
Qed.

Lemma cuda_undecodable_name_raises_witness :
  Cuda.test_cuda (Examples.cuda_host Examples.cuda_bad_name) fresh =
    (Throw (Exception UnicodeDecodeError "'utf-8' codec can't decode bytes"),
     World
       ["=== CUDA Driver Test ==="; "LD_LIBRARY_PATH: not set";
        "✓ Loaded libcuda.so"; "✓ cuInit succeeded";
        "✓ Found 1 CUDA device(s)"]
       []
       [Load "libcuda.so"; Call "cuInit"; Call "cuDeviceGetCount";
        Call "cuDeviceGet"; Call "cuDeviceGetName"]).
Proof.
  apply (cuda_undecodable_name_raises
           (Examples.cuda_host Examples.cuda_bad_name) Examples.cuda_bad_name
           1 0 (Byte.xff :: repeat Byte.x00 255) fresh);
    [reflexivity | reflexivity | reflexivity | lia | reflexivity | reflexivity
    | reflexivity].
Defined.

(** ** Every run of test-cuda.py *)

(** Split a run of [test_cuda] on everything the host may answer. *)
Ltac cuda_outcomes :=
  unfold Cuda.test_cuda, decode, int_truediv;
  repeat first
    [ progress py_unfold
    | progress cbn [isinstance_OSError]
    | case_decide
    | match goal with
      | |- context [match ?f with Returned _ _ => _ | Raised _ _ => _ end] =>
          destruct f as [? ?|? ?] eqn:?
      | |- context [match ?f with Loaded _ => _ | LoadError _ _ => _ end] =>
          destruct f as [?|[] ?] eqn:?
      | |- context [if utf8_valid ?bs then _ else _] =>
          destruct (utf8_valid bs) eqn:?
      | |- context [match nearest_binary64 ?a ?b with _ => _ end] =>
          destruct (nearest_binary64 a b) as [[? ?]|] eqn:?
      end ].

(** Whatever the host answers, [test_cuda] attempts to load [libcuda.so]
    and nothing else, once, and the entry points it calls are an initial
    part of the fixed order: none is called twice, out of order, or after
    one that was skipped. *)
Theorem cuda_calls_in_order (h : Cuda.host) :
  loads (trace (Cuda.test_cuda h fresh).2) = ["libcuda.so"]
  /\ calls (trace (Cuda.test_cuda h fresh).2) `prefix_of` cuda_call_order.
Proof.
  cuda_outcomes; cbn; (split; [done | by eexists]).
Qed.

(** [test_cuda] returns [True] only if the library loaded, [cuInit] and
    the count query returned status 0, the count is not 0 (it may be
    negative: the source tests [count.value == 0]), and the handle of
    device 0 was fetched with status 0; all five entry points were then
    called. *)
Theorem cuda_success_requires (h : Cuda.host) w :
  succeeded (Cuda.test_cuda h w) = true ->
  exists lib n device,
    Cuda.dlopen h "libcuda.so" = Loaded lib
    /\ Cuda.cuInit lib 0 = Returned 0 tt
    /\ Cuda.cuDeviceGetCount lib = Returned 0 n /\ n ≠ 0
    /\ Cuda.cuDeviceGet lib 0 = Returned 0 device
    /\ calls (trace (Cuda.test_cuda h w).2) = calls (trace w) ++ cuda_call_order.
Proof.
  unfold succeeded.
  cuda_outcomes; cbn [fst snd trace]; intros Hok; try discriminate Hok;
    repeat match goal with
           | H : ¬ _ ≠ _ |- _ => apply dec_stable in H
           | u : unit |- _ => destruct u
           end;
    simplify_eq;
    (eexists _, _, _; repeat split; [eassumption..|];
     by rewrite <- !app_assoc, calls_app).
Qed.

Lemma cuda_success_requires_witness :
  exists lib n device,
    Cuda.dlopen (Examples.cuda_host Examples.cuda_negative_count) "libcuda.so"
      = Loaded lib
    /\ Cuda.cuInit lib 0 = Returned 0 tt
    /\ Cuda.cuDeviceGetCount lib = Returned 0 n /\ n ≠ 0
    /\ Cuda.cuDeviceGet lib 0 = Returned 0 device
    /\ calls (trace (Cuda.test_cuda
                       (Examples.cuda_host Examples.cuda_negative_count)
                       fresh).2)
       = calls (trace fresh) ++ cuda_call_order.
Proof.
  apply (cuda_success_requires
           (Examples.cuda_host Examples.cuda_negative_count) fresh).
  reflexivity.
Defined.


(** ** Every run of test-nvml.py *)

(** Either every candidate raises [OSError], or there is a first one that
    does not. *)
Lemma candidates_split (h : Nvml.host) (paths : list string) :
  Forall (fun path => load_fails h path) paths
  \/ exists pre path post,
       paths = pre ++ path :: post
       /\ Forall (fun path => load_fails h path) pre
       /\ load_fails h path = false.
Proof.
  induction paths as [|path paths IH]; [by left|].
  destruct (load_fails h path) eqn:Hpath.
  - destruct IH as [Hall|(pre & first & post & -> & Hpre & Hfirst)].
    + left. constructor; [by rewrite Hpath|done].
    + right. exists (path :: pre), first, post.
      split; [done|]. split; [|done]. constructor; [by rewrite Hpath|done].
  - right. by exists [], path, paths.
Qed.

(** A candidate whose load raises something other than [OSError] ends the
    loop with that exception: the [except] clause does not apply. *)
Lemma load_loop_escape (h : Nvml.host) pre path post cls msg w :
  Forall (fun path => load_fails h path) pre ->
  Nvml.dlopen h path = LoadError cls msg ->
  isinstance_OSError (Exception cls msg) = false ->
  Nvml.load_loop h (pre ++ path :: post) w =
    (Throw (Exception cls msg),
     World (stdout w ++ (load_line h <$> pre)) (stderr w)
           (trace w ++ (Load <$> pre ++ [path]))).
Proof.
  intros Hpre Hopen Hos. revert w.
  induction Hpre as [|skipped pre Hskipped _ IH]; intros w.
  - cbn [app Nvml.load_loop]. py_unfold. answer Hopen. rewrite Hos.
    cbn [fmap list_fmap]. by rewrite app_nil_r.
  - cbn [app]. rewrite load_loop_skip by done. rewrite IH.
    cbn [stdout stderr trace]. by rewrite <- !app_assoc.
Qed.

(** Split a run of [test_nvml] over [paths] on everything the host may
    answer. *)
Ltac nvml_outcomes h paths :=
  let pre := fresh "pre" in
  let path := fresh "path" in
  let post := fresh "post" in
  let lib := fresh "lib" in
  let Hall := fresh "Hall" in
  let Hpre := fresh "Hpre" in
  let Hpath := fresh "Hpath" in
  let Hopen := fresh "Hopen" in
  unfold Nvml.test_nvml_over;
  destruct (candidates_split h paths)
    as [Hall|(pre & path & post & -> & Hpre & Hpath)];
  [ py_unfold; rewrite !(load_loop_none h paths) by exact Hall; py_unfold
  | unfold load_fails in Hpath;
    destruct (Nvml.dlopen h path) as [lib|? ?] eqn:Hopen;
    [ py_unfold; rewrite !(load_loop_first h pre path post lib) by done;
      repeat first
        [ progress py_unfold
        | progress cbn [isinstance_Exception]
        | case_decide
        | match goal with
          | |- context [match ?f with Returned _ _ => _ | Raised _ _ => _ end] =>
              destruct f as [? ?|? ?] eqn:?
          end ]
    | py_unfold;
      rewrite !(load_loop_escape h pre path post _ _) by done; py_unfold ] ].

(** Whatever the host answers, the load attempts of [test_nvml] are an
    initial part of the candidate list and its calls an initial part of
    the fixed order. *)
Theorem nvml_attempts_in_order (h : Nvml.host) (paths : list string) :
  loads (trace (Nvml.test_nvml_over paths h fresh).2) `prefix_of` paths
  /\ calls (trace (Nvml.test_nvml_over paths h fresh).2)
       `prefix_of` nvml_call_order.
Proof.
  nvml_outcomes h paths;
    cbn [snd trace fresh app];
    rewrite ?loads_app, ?calls_app, ?loads_Load, ?calls_Load;
    cbn [loads calls omap app]; rewrite ?app_nil_r;
    (split;
     [ first [reflexivity | exists post; by rewrite <- app_assoc]
     | by eexists ]).
Qed.


(** [test_nvml] returns [True] exactly when some candidate loads after
    candidates that all raised [OSError], [nvmlInit_v2] and the count query
    of that library return status 0, the count is positive, and
    [nvmlShutdown] returns. *)
Theorem nvml_success_iff (h : Nvml.host) (paths : list string) w :
  succeeded (Nvml.test_nvml_over paths h w) = true
  <-> exists pre path post lib n status,
        paths = pre ++ path :: post
        /\ Forall (fun path => load_fails h path) pre
        /\ Nvml.dlopen h path = Loaded lib
        /\ Nvml.nvmlInit_v2 lib = Returned 0 tt
        /\ Nvml.nvmlDeviceGetCount_v2 lib = Returned 0 n /\ n > 0
        /\ Nvml.nvmlShutdown lib = Returned status tt.
Proof.
  split.
  - unfold succeeded.
    nvml_outcomes h paths; cbn [fst]; intros Hok; try discriminate Hok.
    repeat match goal with
           | H : ¬ _ ≠ _ |- _ => apply dec_stable in H
           | u : unit |- _ => destruct u
           end.
    simplify_eq. apply bool_decide_eq_true in Hok.
    eexists _, _, _, _, _, _. by repeat split.
  - intros (pre & path & post & lib & n & status & -> & Hpre & Hpath & Hinit
            & Hcount & Hn & Hshutdown).
    rewrite (nvml_counted h pre post path lib Hpre Hpath Hinit n status tt w
               Hcount Hshutdown).
    unfold succeeded. cbn [fst]. by apply bool_decide_eq_true.
Qed.

Lemma load_line_no_verdict (h : Nvml.host) (path : string) :
  load_line h path ≠ "Result: GPU DETECTED".
Proof. unfold load_line. destruct (Nvml.dlopen h path); cbn; discriminate. Qed.

(** Whatever the host answers, test-nvml.py exits with code 0 when
    [test_nvml] returned [True] and with code 1 otherwise, a run that
    raised included; and it exits with 0 exactly when its report ends with
    the line of success. *)
Theorem nvml_exit_code (h : Nvml.host) (paths : list string) :
  exit_code (run_script (Nvml.main_over paths h))
    = (if succeeded (Nvml.test_nvml_over paths h (World (nvml_header h) [] []))
       then 0 else 1)
  /\ (exit_code (run_script (Nvml.main_over paths h)) = 0
      <-> last (p_stdout (run_script (Nvml.main_over paths h)))
          = Some "Result: GPU DETECTED").
Proof.
  unfold succeeded, run_script, Nvml.main_over. py_unfold.
  change (Nvml.test_nvml_over paths h _)
    with (Nvml.test_nvml_over paths h (World (nvml_header h) [] [])).
  nvml_outcomes h paths;
    cbn [fst snd stdout stderr trace exit_code p_stdout];
    try match goal with
        | |- context [bool_decide ?P] => destruct (bool_decide P); py_unfold
        end;
    cbn [exit_code p_stdout];
    rewrite ?last_snoc;
    (split; [done|]); split; intros Hend; try done; try discriminate Hend.
  rewrite last_app, fmap_last in Hend.
  destruct (last pre) as [skipped|]; cbn in Hend; [|discriminate Hend].
  injection Hend as Hend. by apply load_line_no_verdict in Hend.
Qed.

(** ** What the verdict does not depend on *)

(** The search loop looks at the host through [ctypes.CDLL] only. *)
Lemma load_loop_only_dlopen environ exists_ environ' exists_' dlopen paths w :
  Nvml.load_loop (Nvml.Host environ exists_ dlopen) paths w
  = Nvml.load_loop (Nvml.Host environ' exists_' dlopen) paths w.
Proof.
  revert w. induction paths as [|path paths IH]; intros w; [done|].
  cbn [Nvml.load_loop Nvml.dlopen]. py_unfold.
  destruct (dlopen path) as [lib|cls msg]; py_unfold; [done|].
  destruct (isinstance_OSError _); py_unfold; [apply IH | done].
Qed.

Lemma test_nvml_only_dlopen environ exists_ environ' exists_' dlopen paths w :
  Nvml.test_nvml_over paths (Nvml.Host environ exists_ dlopen) w
  = Nvml.test_nvml_over paths (Nvml.Host environ' exists_' dlopen) w.
Proof.
  unfold Nvml.test_nvml_over. py_unfold.
  by rewrite (load_loop_only_dlopen environ exists_ environ' exists_').
Qed.

(** The device nodes and [LD_LIBRARY_PATH] are shown and nothing more: two
    hosts in which the same libraries load give the same exit code and the
    same load attempts and calls, whatever their environment and whichever
    device nodes exist. *)
Theorem nvml_verdict_ignores_environment
    environ exists_ environ' exists_' dlopen (paths : list string) :
  exit_code (run_script (Nvml.main_over paths (Nvml.Host environ exists_ dlopen)))
  = exit_code (run_script
                 (Nvml.main_over paths (Nvml.Host environ' exists_' dlopen)))
  /\ p_trace (run_script
                (Nvml.main_over paths (Nvml.Host environ exists_ dlopen)))
     = p_trace (run_script
                  (Nvml.main_over paths (Nvml.Host environ' exists_' dlopen))).
Proof.
  unfold run_script, Nvml.main_over. py_unfold.
  rewrite (test_nvml_only_dlopen environ' exists_' environ exists_).
  set (h := Nvml.Host environ exists_ dlopen).
  nvml_outcomes h paths;
    cbn [fst snd stdout stderr trace exit_code p_trace];
    try match goal with
        | |- context [bool_decide ?P] => destruct (bool_decide P); py_unfold
        end;
    done.
Qed.

(** ** Exceptions and cleanup in test_nvml *)

(** An exception raised by [nvmlInit_v2] or by the count query is caught:
    [test_nvml] prints it and returns [False], and calls nothing more,
    [nvmlShutdown] included. *)
Theorem nvml_exceptions_caught (h : Nvml.host) pre path post lib cls msg w :
  Forall (fun path => load_fails h path) pre ->
  Nvml.dlopen h path = Loaded lib ->
  (Nvml.nvmlInit_v2 lib = Raised cls msg ->
   Nvml.test_nvml_over (pre ++ path :: post) h w =
     (Normal false,
      searched h (pre ++ [path]) w ["✗ nvmlInit_v2 exception: " +:+ msg]
        ["nvmlInit_v2"]))
  /\ (Nvml.nvmlInit_v2 lib = Returned 0 tt ->
      Nvml.nvmlDeviceGetCount_v2 lib = Raised cls msg ->
      Nvml.test_nvml_over (pre ++ path :: post) h w =
        (Normal false,
         searched h (pre ++ [path]) w
           ["✓ nvmlInit_v2 succeeded";
            "✗ nvmlDeviceGetCount exception: " +:+ msg]
           ["nvmlInit_v2"; "nvmlDeviceGetCount_v2"])).
Proof.
  intros Hpre Hpath. split.
  - intros Hinit.
    exact (nvml_init_raised h pre post path lib Hpre Hpath cls msg w Hinit).
  - intros Hinit Hcount.
    exact (nvml_count_raised h pre post path lib Hpre Hpath Hinit cls msg w
             Hcount).
Qed.

(** After a count query that returned status 0, [nvmlShutdown] is called
    once, last, and the status it returns changes nothing: the result is
    whether the count is positive. *)
Theorem nvml_shutdown_status_ignored (h : Nvml.host) pre path post lib n
    status w :
  Forall (fun path => load_fails h path) pre ->
  Nvml.dlopen h path = Loaded lib ->
  Nvml.nvmlInit_v2 lib = Returned 0 tt ->
  Nvml.nvmlDeviceGetCount_v2 lib = Returned 0 n ->
  Nvml.nvmlShutdown lib = Returned status tt ->
  Nvml.test_nvml_over (pre ++ path :: post) h w =
    (Normal (bool_decide (n > 0)),
     searched h (pre ++ [path]) w
       ["✓ nvmlInit_v2 succeeded"; "✓ Found " +:+ pretty n +:+ " GPU(s)"]
       nvml_call_order).
Proof.
  intros Hpre Hpath Hinit Hcount Hshutdown.
  exact (nvml_counted h pre post path lib Hpre Hpath Hinit n status tt w
           Hcount Hshutdown).
Qed.

(** ** run_make.py when nothing runs *)

(** If the directory cannot be entered, the wrapper prints nothing; if
    [make] cannot be started, it prints the announcement only.  Either
    way the exception is not caught: traceback, exit code 1, and neither
    the failure line nor the completion line. *)
Theorem run_make_cannot_run (h : RunMake.host) cls msg :
  (RunMake.chdir h "/workspace/repo-76e8dc9d-020e-4ec1-93c2-ad0a593aa1a6"
     = Some (Exception cls msg) ->
   run_script (RunMake.script h)
   = Process [] [traceback (Exception cls msg)] [] 1)
  /\ (RunMake.chdir h "/workspace/repo-76e8dc9d-020e-4ec1-93c2-ad0a593aa1a6"
        = None ->
      RunMake.run h ["make"; "oapi-generate"] = inr (Exception cls msg) ->
      run_script (RunMake.script h)
      = Process ["Running make oapi-generate..."]
          [traceback (Exception cls msg)] [] 1).
Proof.
  split.
  - intros Hchdir.
    unfold run_script, RunMake.script, RunMake.os_chdir. py_unfold.
    by answer Hchdir.
  - intros Hchdir Hrun.
    unfold run_script, RunMake.script, RunMake.os_chdir,
      RunMake.subprocess_run.
    py_unfold. answer Hchdir. by answer Hrun.
Qed.

Lemma run_make_cannot_run_witness :
  run_script (RunMake.script Examples.make_no_directory)
  = Process []
      [traceback (Exception FileNotFoundError
                    "[Errno 2] No such file or directory")]
      [] 1.
Proof.
  apply (run_make_cannot_run Examples.make_no_directory FileNotFoundError
           "[Errno 2] No such file or directory").
  reflexivity.
Defined.

Lemma nvml_exceptions_caught_witness :
  Nvml.test_nvml (Examples.nvml_host Examples.nvml_no_init) fresh =
    (Normal false,
     searched (Examples.nvml_host Examples.nvml_no_init)
       ["libnvidia-ml.so.1"; "libnvidia-ml.so"] fresh
       ["✗ nvmlInit_v2 exception: undefined symbol: nvmlInit_v2"]
       ["nvmlInit_v2"]).
Proof.
  apply (nvml_exceptions_caught (Examples.nvml_host Examples.nvml_no_init)
           ["libnvidia-ml.so.1"] "libnvidia-ml.so"
           ["/usr/lib/x86_64-linux-gnu/libnvidia-ml.so.1"]
           Examples.nvml_no_init AttributeError
           "undefined symbol: nvmlInit_v2" fresh);
    [repeat constructor | reflexivity | reflexivity].
Defined.

Lemma nvml_shutdown_status_ignored_witness :
  Nvml.test_nvml (Examples.nvml_host Examples.nvml_shutdown_fails) fresh =
    (Normal true,
     searched (Examples.nvml_host Examples.nvml_shutdown_fails)
       ["libnvidia-ml.so.1"; "libnvidia-ml.so"] fresh
       ["✓ nvmlInit_v2 succeeded"; "✓ Found 2 GPU(s)"]
       nvml_call_order).
Proof.
  apply (nvml_shutdown_status_ignored
           (Examples.nvml_host Examples.nvml_shutdown_fails)
           ["libnvidia-ml.so.1"] "libnvidia-ml.so"
           ["/usr/lib/x86_64-linux-gnu/libnvidia-ml.so.1"]
           Examples.nvml_shutdown_fails 2 1 fresh);
    [repeat constructor | reflexivity | reflexivity | reflexivity
    | reflexivity].
Defined.

(** ** The steps of test_cuda that stop the probe *)

(** The first step that fails ends [test_cuda] with [False]: a load that
    raises [OSError], or a non-zero status from [cuInit], from the count
    query or from [cuDeviceGet].  The report ends with the line of that
    step, which carries the message or the status, and no entry point is
    called after it. *)
Theorem cuda_first_failure_stops (h : Cuda.host) w :
  (forall cls msg,
     Cuda.dlopen h "libcuda.so" = LoadError cls msg ->
     isinstance_OSError (Exception cls msg) ->
     (Cuda.test_cuda h w).1 = Normal false
     /\ last (stdout (Cuda.test_cuda h w).2)
        = Some ("✗ Failed to load libcuda.so: " +:+ msg)
     /\ calls (trace (Cuda.test_cuda h w).2) = calls (trace w))
  /\ (forall lib c u,
        Cuda.dlopen h "libcuda.so" = Loaded lib ->
        Cuda.cuInit lib 0 = Returned c u -> c ≠ 0 ->
        (Cuda.test_cuda h w).1 = Normal false
        /\ last (stdout (Cuda.test_cuda h w).2)
           = Some ("✗ cuInit failed with code: " +:+ pretty c)
        /\ calls (trace (Cuda.test_cuda h w).2)
           = calls (trace w) ++ take 1 cuda_call_order)
  /\ (forall lib c slot,
        Cuda.dlopen h "libcuda.so" = Loaded lib ->
        Cuda.cuInit lib 0 = Returned 0 tt ->
        Cuda.cuDeviceGetCount lib = Returned c slot -> c ≠ 0 ->
        (Cuda.test_cuda h w).1 = Normal false
        /\ last (stdout (Cuda.test_cuda h w).2)
           = Some ("✗ cuDeviceGetCount failed with code: " +:+ pretty c)
        /\ calls (trace (Cuda.test_cuda h w).2)
           = calls (trace w) ++ take 2 cuda_call_order)
  /\ (forall lib n c slot,
        Cuda.dlopen h "libcuda.so" = Loaded lib ->
        Cuda.cuInit lib 0 = Returned 0 tt ->
        Cuda.cuDeviceGetCount lib = Returned 0 n -> n ≠ 0 ->
        Cuda.cuDeviceGet lib 0 = Returned c slot -> c ≠ 0 ->
        (Cuda.test_cuda h w).1 = Normal false
        /\ last (stdout (Cuda.test_cuda h w).2)
           = Some ("✗ cuDeviceGet failed: " +:+ pretty c)
        /\ calls (trace (Cuda.test_cuda h w).2)
           = calls (trace w) ++ take 3 cuda_call_order).
Proof.
  split; [|split; [|split]].
  - intros cls msg Hload Hos. rewrite (cuda_load_failed h cls msg w Hload Hos).
    cbn [fst snd stdout trace]. split; [done|].
    split; [by rewrite !app_assoc, last_snoc|].
    rewrite calls_app. cbn. by rewrite app_nil_r.
  - intros lib c u Hload Hinit Hc.
    rewrite (cuda_init_failed h lib Hload c u w Hinit Hc).
    cbn [fst snd stdout trace]. split; [done|].
    split; [by rewrite !app_assoc, last_snoc|]. by rewrite calls_app.
  - intros lib c slot Hload Hinit Hcount Hc.
    rewrite (cuda_count_failed h lib Hload Hinit c slot w Hcount Hc).
    cbn [fst snd stdout trace]. split; [done|].
    split; [by rewrite !app_assoc, last_snoc|]. by rewrite calls_app.
  - intros lib n c slot Hload Hinit Hcount Hn Hget Hc.
    rewrite (cuda_handle_failed h lib Hload Hinit n c slot w Hcount Hn Hget Hc).
    cbn [fst snd stdout trace]. split; [done|].
    split; [by rewrite !app_assoc, last_snoc2|]. by rewrite calls_app.
Qed.

Lemma cuda_first_failure_stops_witness :
  (Cuda.test_cuda (Examples.cuda_host Examples.cuda_count_error) fresh).1
    = Normal false
  /\ last (stdout (Cuda.test_cuda (Examples.cuda_host Examples.cuda_count_error)
                     fresh).2)
     = Some "✗ cuDeviceGetCount failed with code: 100"
  /\ calls (trace (Cuda.test_cuda
                     (Examples.cuda_host Examples.cuda_count_error) fresh).2)
     = ["cuInit"; "cuDeviceGetCount"].
Proof.
  destruct (cuda_first_failure_stops
              (Examples.cuda_host Examples.cuda_count_error) fresh)
    as (_ & _ & Hcount & _).
  apply (Hcount Examples.cuda_count_error 100 0);
    [reflexivity | reflexivity | reflexivity | lia].
Defined.

(** ** The header of test-nvml.py *)

(** Whatever the host answers, and whichever device nodes exist,
    test-nvml.py prints the header (the banner, [LD_LIBRARY_PATH], and one
    line for each of the three device nodes saying whether it exists) and
    then runs the whole probe: the rest of the report is the report of
    [test_nvml], followed by an empty line and the verdict when
    [test_nvml] returned, and the load attempts and calls of the process
    are those of [test_nvml]. *)
Theorem nvml_report_starts_with_header (h : Nvml.host) (paths : list string) :
  p_stdout (run_script (Nvml.main_over paths h))
  = nvml_header h
      ++ stdout (Nvml.test_nvml_over paths h fresh).2
      ++ match (Nvml.test_nvml_over paths h fresh).1 with
         | Normal success => [""; Nvml.verdict success]
         | Throw _ => []
         end
  /\ p_trace (run_script (Nvml.main_over paths h))
     = trace (Nvml.test_nvml_over paths h fresh).2.
Proof.
  unfold run_script, Nvml.main_over. py_unfold.
  change (Nvml.test_nvml_over paths h (World _ _ _))
    with (Nvml.test_nvml_over paths h (World (nvml_header h) [] [])).
  nvml_outcomes h paths;
    cbn [fst snd stdout stderr trace fresh];
    try match goal with
        | |- context [bool_decide ?P] => destruct (bool_decide P); py_unfold
        end;
    cbn [p_stdout p_trace fst snd stdout trace fresh app];
    (split; [by rewrite <- ?app_assoc, ?app_nil_r | done]).
Qed.
